(** * amp-fx-flying-carpet 0.1: lifecycle of the flying-carpet component

    Shallow embedding of
    [src/extensions/amp-fx-flying-carpet/0.1/amp-fx-flying-carpet.js]
    (class [AmpFlyingCarpet]) and the properties of its lifecycle callbacks.

    - JavaScript numbers that take part in arithmetic on measurements are
      IEEE-754 binary64 values, modelled by [spec_float] with the operations
      of the Standard Library at precision 53 and maximal exponent 1024.
    - The counter [totalChildren_] only ever holds an array length minus a
      number of decrements bounded by that length; on such values JavaScript
      arithmetic is exact integer arithmetic, so it is modelled in [Z].
    - DOM nodes are objects compared by reference; a [Node] carries the
      reference as [nodeId] and a snapshot of the properties the component
      reads.
    - Calls into the host runtime are recorded, in program order, in a trace
      of [Event]s; values the host hands back are arguments of the callback. *)

From Stdlib Require Import ZArith NArith List Bool String Ascii Lia SpecFloat.
From Stdlib Require Import Permutation.
Import ListNotations.
Local Open Scope Z_scope.

(** ** JavaScript numbers *)

Definition num := spec_float.

Definition prec64 : Z := 53.
Definition emax64 : Z := 1024.

Definition num_mul : num -> num -> num := SFmul prec64 emax64.
Definition num_sub : num -> num -> num := SFsub prec64 emax64.
Definition num_div : num -> num -> num := SFdiv prec64 emax64.

(** [x <= y] and [x >= y] of the language; both are false on NaN. *)
Definition num_le (x y : num) : bool := SFleb x y.
Definition num_ge (x y : num) : bool := SFleb y x.

(** The binary64 value of an integer literal. *)
Definition num_of_Z (z : Z) : num := binary_normalize prec64 emax64 z 0 false.

(** The literal [0.75] is exactly [3 * 2^-2]. *)
Definition lit_0_75 : num := binary_normalize prec64 emax64 3 (-2) false.

(** The literal [0.95] denotes the nearest binary64 value,
    [0x1.e666666666666p-1], i.e. [0x1e666666666666 * 2^-53]. *)
Definition lit_0_95 : num := S754_finite false 8556839292003942 (-53).

Definition is_nan (x : num) : bool :=
  match x with S754_nan => true | _ => false end.

Definition is_zero (x : num) : bool :=
  match x with S754_zero _ => true | _ => false end.

Definition is_neg_zero (x : num) : bool :=
  match x with S754_zero true => true | _ => false end.

(** Neither NaN nor an infinity. *)
Definition is_finite (x : num) : bool :=
  match x with S754_zero _ | S754_finite _ _ _ => true | _ => false end.

(** Finite and different from zero. *)
Definition finite_nonzero (x : num) : bool :=
  match x with S754_finite _ _ _ => true | _ => false end.

(** Finite and strictly greater than zero. *)
Definition is_finite_positive (x : num) : bool :=
  match x with S754_finite false _ _ => true | _ => false end.

(** [Math.min] on two arguments: NaN if either argument is NaN, otherwise
    the smaller one, with [-0] ordered below [+0]. *)
Definition Math_min (x y : num) : num :=
  if is_nan x || is_nan y then S754_nan
  else match SFcompare x y with
       | Some Lt => x
       | Some Gt => y
       | Some Eq => if is_neg_zero x then x else y
       | None => S754_nan
       end.

(** An instance of the built-in [Number] conversion on the argument forms
    [null] (attribute absent), the empty string and unsigned decimal integer
    literals.  It is used for concrete runs only: every other string is sent
    to NaN here, whereas the language accepts more literals.  The component
    itself is parameterised by the conversion. *)
Definition digit_of_ascii (c : ascii) : option Z :=
  let n := Z.of_nat (nat_of_ascii c) in
  if (48 <=? n) && (n <=? 57) then Some (n - 48) else None.

Fixpoint uint_of_string (acc : Z) (s : string) : option Z :=
  match s with
  | EmptyString => Some acc
  | String c r =>
      match digit_of_ascii c with
      | Some d => uint_of_string (10 * acc + d) r
      | None => None
      end
  end.

Definition Number_uint (v : option string) : num :=
  match v with
  | None => S754_zero false
  | Some s =>
      match uint_of_string 0 s with
      | Some z => num_of_Z z
      | None => S754_nan
      end
  end.

(** ** DOM nodes *)

(** The values of the [Layout] enumeration of [src/layout.js]. *)
Inductive Layout : Type :=
| NODISPLAY | FIXED | FIXED_HEIGHT | RESPONSIVE | CONTAINER
| FILL | FLEX_ITEM | FLUID | INTRINSIC.

Definition Layout_eqb (a b : Layout) : bool :=
  match a, b with
  | NODISPLAY, NODISPLAY | FIXED, FIXED | FIXED_HEIGHT, FIXED_HEIGHT
  | RESPONSIVE, RESPONSIVE | CONTAINER, CONTAINER | FILL, FILL
  | FLEX_ITEM, FLEX_ITEM | FLUID, FLUID | INTRINSIC, INTRINSIC => true
  | _, _ => false
  end.

(** [nodeType] values used by the component. *)
Definition ELEMENT_NODE : Z := 1.
Definition TEXT_NODE : Z := 3.

Record Node : Type := mkNode {
  nodeId : nat;                          (* the object reference *)
  nodeType : Z;
  textContent : list N;                  (* UTF-16 code units *)
  layout_ : option Layout;               (* [undefined] when not an AMP element *)
  attributes : list (string * string)
}.

(** [a === b] on node objects. *)
Definition same_node (a b : Node) : bool := Nat.eqb (nodeId a) (nodeId b).

Fixpoint getAttribute (name : string) (attrs : list (string * string))
  : option string :=
  match attrs with
  | [] => None
  | (k, v) :: r => if String.eqb k name then Some v else getAttribute name r
  end.

Definition hasAttribute (name : string) (attrs : list (string * string)) : bool :=
  match getAttribute name attrs with Some _ => true | None => false end.

(** The character class [\s] of the regular-expression grammar, on a UTF-16
    code unit: the WhiteSpace and LineTerminator code points. *)
Definition js_whitespace (c : N) : bool :=
  ((9 <=? c) && (c <=? 13) || (c =? 32) || (c =? 160) || (c =? 5760)
   || (8192 <=? c) && (c <=? 8202) || (c =? 8232) || (c =? 8233)
   || (c =? 8239) || (c =? 8287) || (c =? 12288) || (c =? 65279))%N.

(** [/\S/.test(s)]: some code unit of [s] is outside [\s]. *)
Definition test_nonspace (s : list N) : bool :=
  existsb (fun c => negb (js_whitespace c)) s.

(** Code units of an ASCII string, for writing text nodes in examples. *)
Fixpoint code_units (s : string) : list N :=
  match s with
  | EmptyString => []
  | String c r => N_of_ascii c :: code_units r
  end.

(** [Array.prototype.indexOf] with strict equality on nodes; [-1] when the
    node does not occur. *)
Fixpoint indexOf_from (child : Node) (l : list Node) (i : Z) : Z :=
  match l with
  | [] => -1
  | x :: r => if same_node x child then i else indexOf_from child r (i + 1)
  end.

Definition indexOf (child : Node) (l : list Node) : Z := indexOf_from child l 0.

(** [l.splice(index, 1)], the array after the call: a negative index counts
    from the end, an index past the end removes nothing. *)
Definition splice1 (index : Z) (l : list Node) : list Node :=
  let len := Z.of_nat (List.length l) in
  let start := if index <? 0 then Z.max (len + index) 0 else Z.min index len in
  firstn (Z.to_nat start) l ++ skipn (Z.to_nat start + 1) l.

(** ** Effects: component state, host trace, exceptions *)

(** Errors the callbacks can raise.  The two position errors and the two
    scalability errors are the [userAssert] failures, carrying the values
    that are formatted into their messages. *)
Inductive Error : Type :=
| PositionTooEarly (top minTop : num)
| PositionTooLate (top maxTop : num)
| NotSingleChild (childrenCount : Z)
| ChildNotFixed (layout : option Layout)
| DevAssertNotElement
| TypeError.

(** State of a promise handed to or received from the host. *)
Inductive Promise : Type := Fulfilled | Rejected.

(** [p.catch(() => {})]: the handler returns normally, so the derived
    promise is fulfilled whatever [p] is. *)
Definition catch_ignore (p : Promise) : Promise :=
  match p with
  | Fulfilled => Fulfilled
  | Rejected => Fulfilled
  end.

(** Calls into the host runtime and the console, in the order issued. *)
Inductive Event : Type :=
| EvSetAsOwner (child : Node)
| EvConsoleWarn (msg : string)
| EvConsoleLogViewport (viewportWidth viewportHeight : num)
| EvConsoleLogChild (width height : num)
| EvReparent (nodes : list Node)         (* children moved into the container *)
| EvAppendClip                           (* container into clip, clip into element *)
| EvAddToFixedLayer (forceTransfer : bool)
| EvSetContainerWidth (width : num)      (* the deferred [setStyle] mutation *)
| EvScheduleLayout (targets : list Node)
| EvListenBuilt
| EvSetTransform (child : Node) (scaleCoefficient : num)
| EvUpdateInViewport (targets : list Node) (inViewport : bool)
| EvCollapse
| EvAttemptCollapse.

(** The fields of [AmpFlyingCarpet], and the number of [AmpEvents.BUILT]
    listeners the component has registered on its element. *)
Record State : Type := mkState {
  children_ : list Node;
  totalChildren_ : Z;
  container_ : option (list Node);
  scaleContent_ : bool;
  firstLayoutCompleted_ : bool;
  builtListeners : nat
}.

(** The fields as the constructor leaves them. *)
Definition constructed : State :=
  mkState [] 0 None false false 0.

Inductive Outcome (A : Type) : Type :=
| Return (a : A)
| Throw (e : Error).
Arguments Return {A} a.
Arguments Throw {A} e.

Definition M (A : Type) : Type := State -> State * list Event * Outcome A.

Definition ret {A} (a : A) : M A := fun s => (s, [], Return a).

Definition throw {A} (e : Error) : M A := fun s => (s, [], Throw e).

Definition bind {A B} (m : M A) (f : A -> M B) : M B :=
  fun s =>
    match m s with
    | (s1, t1, Return a) =>
        match f a s1 with
        | (s2, t2, r) => (s2, t1 ++ t2, r)
        end
    | (s1, t1, Throw e) => (s1, t1, Throw e)
    end.

(** [try { m } catch (e) { h e }] *)
Definition try_catch {A} (m : M A) (h : Error -> M A) : M A :=
  fun s =>
    match m s with
    | (s1, t1, Return a) => (s1, t1, Return a)
    | (s1, t1, Throw e) =>
        match h e s1 with
        | (s2, t2, r) => (s2, t1 ++ t2, r)
        end
    end.

Definition get : M State := fun s => (s, [], Return s).
Definition emit (ev : Event) : M unit := fun s => (s, [ev], Return tt).

Declare Scope carpet_scope.
Delimit Scope carpet_scope with carpet.
Notation "x <- m ;; k" := (bind m (fun x => k))
  (at level 61, m at next level, right associativity) : carpet_scope.
Notation "m ;; k" := (bind m (fun _ => k))
  (at level 61, right associativity) : carpet_scope.
Local Open Scope carpet_scope.

Definition when (b : bool) (m : M unit) : M unit := if b then m else ret tt.

Fixpoint forEach {A} (l : list A) (f : A -> M unit) : M unit :=
  match l with
  | [] => ret tt
  | x :: r => f x ;; forEach r f
  end.

Definition state_of {A} (r : State * list Event * Outcome A) : State := fst (fst r).
Definition trace_of {A} (r : State * list Event * Outcome A) : list Event := snd (fst r).
Definition outcome_of {A} (r : State * list Event * Outcome A) : Outcome A := snd r.

(** [userAssert(cond, msg, args)] of [src/log.js]: raises the user error
    when the condition is false. *)
Definition userAssert (cond : bool) (e : Error) : M unit :=
  if cond then ret tt else throw e.

(** Field updates. *)
Definition set_children_ (l : list Node) (s : State) : State :=
  mkState l (totalChildren_ s) (container_ s) (scaleContent_ s)
          (firstLayoutCompleted_ s) (builtListeners s).
Definition set_totalChildren_ (n : Z) (s : State) : State :=
  mkState (children_ s) n (container_ s) (scaleContent_ s)
          (firstLayoutCompleted_ s) (builtListeners s).
Definition set_container_ (c : option (list Node)) (s : State) : State :=
  mkState (children_ s) (totalChildren_ s) c (scaleContent_ s)
          (firstLayoutCompleted_ s) (builtListeners s).
Definition set_scaleContent_ (b : bool) (s : State) : State :=
  mkState (children_ s) (totalChildren_ s) (container_ s) b
          (firstLayoutCompleted_ s) (builtListeners s).
Definition set_firstLayoutCompleted_ (b : bool) (s : State) : State :=
  mkState (children_ s) (totalChildren_ s) (container_ s) (scaleContent_ s)
          b (builtListeners s).
Definition add_builtListener (s : State) : State :=
  mkState (children_ s) (totalChildren_ s) (container_ s) (scaleContent_ s)
          (firstLayoutCompleted_ s) (S (builtListeners s)).

Definition modify (f : State -> State) : M unit := fun s => (f s, [], Return tt).

(** [listen(this.element, AmpEvents.BUILT, this.layoutBuiltChild_.bind(this))] *)
Definition listenBuilt : M unit :=
  emit EvListenBuilt ;; modify add_builtListener.

(** ** The component *)

Definition isElement (node : Node) : bool := nodeType node =? ELEMENT_NODE.
Definition isText (node : Node) : bool := nodeType node =? TEXT_NODE.

(** Modelled from the spec: [getRealChildren] belongs to the base element
    class, which lies outside the source file of the extension.  The real
    children are the element children among the real child nodes ("captures
    the current real children (elements only)"), in document order. *)
Definition getRealChildren (realChildNodes : list Node) : list Node :=
  filter isElement realChildNodes.

(** [isLayoutSupported] (lines 70-72). *)
Definition isLayoutSupported (layout : Layout) : bool :=
  Layout_eqb layout FIXED_HEIGHT.

(** [visibileChildren_] (lines 276-289). *)
Definition visibileChildren_ (nodes : list Node) : list Node :=
  filter (fun node =>
            if nodeType node =? 1 then true
            else if nodeType node =? 3 then test_nonspace (textContent node)
            else false)
         nodes.

(** [assertScalable_] (lines 172-190). *)
Definition assertScalable_ : M unit :=
  s <- get ;;
  let children := children_ s in
  let childrenCount := Z.of_nat (List.length children) in
  userAssert (childrenCount =? 1) (NotSingleChild childrenCount) ;;
  match nth_error children 0 with
  | None => throw TypeError
  | Some child =>
      userAssert
        (match layout_ child with
         | Some l => Layout_eqb l FIXED
         | None => false
         end)
        (ChildNotFixed (layout_ child))
  end.

(** [buildCallback] (lines 75-112), for the component element [element]
    whose real child nodes are [realChildNodes]. *)
Definition buildCallback (element : Node) (realChildNodes : list Node) : M unit :=
  modify (set_children_ (getRealChildren realChildNodes)) ;;
  modify (set_container_ (Some [])) ;;
  let childNodes := realChildNodes in
  modify (set_totalChildren_
            (Z.of_nat (List.length (visibileChildren_ childNodes)))) ;;
  s <- get ;;
  forEach (children_ s) (fun child => emit (EvSetAsOwner child)) ;;
  when (hasAttribute "scale-content" (attributes element))
       (try_catch
          (assertScalable_ ;; modify (set_scaleContent_ true))
          (fun _ => emit (EvConsoleWarn "Can't scale"))) ;;
  emit (EvReparent childNodes) ;;
  modify (set_container_ (Some childNodes)) ;;
  emit EvAppendClip ;;
  emit (EvAddToFixedLayer false).

(** [assertPosition_] (lines 139-166): [top] is [layoutBox.top]. *)
Definition assertPosition_ (viewportHeight docHeight top : num) : M unit :=
  let minTop := num_mul viewportHeight lit_0_75 in
  let maxTop := num_sub docHeight (num_mul viewportHeight lit_0_95) in
  userAssert (num_ge top minTop) (PositionTooEarly top minTop) ;;
  userAssert (num_le top maxTop) (PositionTooLate top maxTop).

(** [layoutCallback] (lines 193-205). *)
Definition layoutCallback (viewportHeight docHeight top : num) : M Promise :=
  try_catch (assertPosition_ viewportHeight docHeight top)
            (fun e => emit EvCollapse ;; throw e) ;;
  s <- get ;;
  emit (EvScheduleLayout (children_ s)) ;;
  listenBuilt ;;
  modify (set_firstLayoutCompleted_ true) ;;
  ret Fulfilled.

(** [viewportCallback] (lines 130-132). *)
Definition viewportCallback (inViewport : bool) : M unit :=
  s <- get ;;
  emit (EvUpdateInViewport (children_ s) inViewport).

(** [collapsedCallback] (lines 250-259).  [hostCollapse] is the state of the
    promise [attemptCollapse()] returns; the result is [None] where the
    function falls off its end. *)
Definition collapsedCallback (child : Node) (hostCollapse : Promise)
  : M (option Promise) :=
  s <- get ;;
  let index := indexOf child (children_ s) in
  if index >? -1 then
    modify (set_children_ (splice1 index (children_ s))) ;;
    s <- get ;;
    modify (set_totalChildren_ (totalChildren_ s - 1)) ;;
    s <- get ;;
    if totalChildren_ s =? 0 then
      emit EvAttemptCollapse ;;
      ret (Some (catch_ignore hostCollapse))
    else ret None
  else ret None.

(** [getChildren] (lines 265-267). *)
Definition getChildren : M (list Node) :=
  s <- get ;; ret (children_ s).

Section WithNumber.

(** The built-in conversion [Number], applied to the result of
    [getAttribute] ([None] is [null]). *)
Variable Number_ : option string -> num.

(** [applyScaleTransform_] (lines 230-247).  The argument is [None] when the
    caller passes [undefined], on which the first property access raises. *)
Definition applyScaleTransform_ (viewportWidth viewportHeight : num)
           (child : option Node) : M unit :=
  match child with
  | None => throw TypeError
  | Some child =>
      let width := Number_ (getAttribute "width" (attributes child)) in
      let height := Number_ (getAttribute "height" (attributes child)) in
      emit (EvConsoleLogViewport viewportWidth viewportHeight) ;;
      emit (EvConsoleLogChild width height) ;;
      let scaleCoefficient :=
        Math_min (num_div viewportWidth width) (num_div viewportHeight height) in
      emit (EvSetTransform child scaleCoefficient)
  end.

(** [onMeasureChanged] (lines 115-127): [width] is [getLayoutWidth()]. *)
Definition onMeasureChanged (width viewportWidth viewportHeight : num) : M unit :=
  emit (EvSetContainerWidth width) ;;
  s <- get ;;
  when (firstLayoutCompleted_ s)
       (emit (EvScheduleLayout (children_ s)) ;; listenBuilt) ;;
  s <- get ;;
  when (scaleContent_ s)
       (applyScaleTransform_ viewportWidth viewportHeight
                             (nth_error (children_ s) 0)).

(** [layoutBuiltChild_] (lines 214-223): [target] is [event.target] and
    [ownedByThis] the result of [child.getOwner() === this.element]. *)
Definition layoutBuiltChild_ (target : Node) (ownedByThis : bool)
           (viewportWidth viewportHeight : num) : M unit :=
  userAssert (isElement target) DevAssertNotElement ;;
  let child := target in
  when ownedByThis
       (emit (EvScheduleLayout [child]) ;;
        s <- get ;;
        when (scaleContent_ s)
             (applyScaleTransform_ viewportWidth viewportHeight (Some child))).

(** ** Host-driven runs *)

(** What the host can invoke on a built component, with the values it
    supplies during the call. *)
Inductive Callback : Type :=
| CbIsLayoutSupported (layout : Layout)
| CbMeasureChanged (width viewportWidth viewportHeight : num)
| CbViewport (inViewport : bool)
| CbLayout (viewportHeight docHeight top : num)
| CbBuiltEvent (target : Node) (ownedByThis : bool)
               (viewportWidth viewportHeight : num)
| CbCollapsed (child : Node) (hostCollapse : Promise)
| CbGetChildren.

(** Discards the value of a call: the host sees the state and the trace. *)
Definition effects {A} (m : M A) (s : State) : State * list Event :=
  fst (m s).

(** Dispatch of one [AmpEvents.BUILT] event: every registered listener runs,
    an exception in one of them does not stop the others. *)
Fixpoint dispatchBuilt (listeners : nat) (target : Node) (ownedByThis : bool)
         (viewportWidth viewportHeight : num) (s : State) : State * list Event :=
  match listeners with
  | O => (s, [])
  | S n =>
      let '(s1, t1) :=
        effects (layoutBuiltChild_ target ownedByThis
                                   viewportWidth viewportHeight) s in
      let '(s2, t2) :=
        dispatchBuilt n target ownedByThis viewportWidth viewportHeight s1 in
      (s2, t1 ++ t2)
  end.

Definition step (cb : Callback) (s : State) : State * list Event :=
  match cb with
  | CbIsLayoutSupported _ => (s, [])
  | CbMeasureChanged width vw vh => effects (onMeasureChanged width vw vh) s
  | CbViewport inViewport => effects (viewportCallback inViewport) s
  | CbLayout vh dh top => effects (layoutCallback vh dh top) s
  | CbBuiltEvent target owned vw vh =>
      dispatchBuilt (builtListeners s) target owned vw vh s
  | CbCollapsed child hostCollapse =>
      effects (collapsedCallback child hostCollapse) s
  | CbGetChildren => effects getChildren s
  end.

Fixpoint run (cbs : list Callback) (s : State) : State * list Event :=
  match cbs with
  | [] => (s, [])
  | cb :: rest =>
      let '(s1, t1) := step cb s in
      let '(s2, t2) := run rest s1 in
      (s2, t1 ++ t2)
  end.

(** The state and trace after construction and [buildCallback]. *)
Definition built (element : Node) (realChildNodes : list Node)
  : State * list Event :=
  effects (buildCallback element realChildNodes) constructed.

End WithNumber.

(** ** Vocabulary of the properties *)

(** [l1] is obtained from [l2] by dropping elements, keeping the order. *)
Inductive Subseq {A : Type} : list A -> list A -> Prop :=
| Subseq_nil : Subseq [] []
| Subseq_keep : forall x l1 l2, Subseq l1 l2 -> Subseq (x :: l1) (x :: l2)
| Subseq_drop : forall x l1 l2, Subseq l1 l2 -> Subseq l1 (x :: l2).

(** A text node with at least one character that is not white space. *)
Definition nonblank_text (node : Node) : Prop :=
  nodeType node = 3 /\
  exists c, In c (textContent node) /\ js_whitespace c = false.

(** The nodes the visible-children filter is meant to keep. *)
Definition retained (node : Node) : Prop :=
  nodeType node = 1 \/ nonblank_text node.

Definition nonblank_textb (node : Node) : bool :=
  isText node && test_nonspace (textContent node).

(** [child] is (by reference) a member of the tracked children. *)
Definition tracked (child : Node) (s : State) : Prop :=
  exists x, In x (children_ s) /\ same_node x child = true.

(** No node object occurs twice, as in the child list of a DOM element. *)
Definition distinct_nodes (nodes : list Node) : Prop :=
  NoDup (map nodeId nodes).

Definition is_attemptCollapse (ev : Event) : bool :=
  match ev with EvAttemptCollapse => true | _ => false end.

(** The position test of the layout phase: [0.75 * H <= T] and
    [T <= D - 0.95 * H], in the arithmetic of the language. *)
Definition position_accepted (H D T : num) : bool :=
  num_le (num_mul H lit_0_75) T && num_le T (num_sub D (num_mul H lit_0_95)).

(** Exactly one tracked child, whose layout mode is [FIXED]. *)
Definition single_fixed_child (children : list Node) : bool :=
  match children with
  | [child] =>
      match layout_ child with
      | Some l => Layout_eqb l FIXED
      | None => false
      end
  | _ => false
  end.

(** The scale factor [min(W / w, H / h)]. *)
Definition scale_factor (W H w h : num) : num :=
  Math_min (num_div W w) (num_div H h).

(** What may be said of an event of a run as far as scaling goes: a
    transform is only ever set when scaling is [enabled], and its factor is
    [min(W / w, H / h)] for the declared size [w], [h] of the child and some
    viewport size [W], [H] supplied by the host. *)
Definition transform_ok (Number_ : option string -> num) (enabled : bool)
           (ev : Event) : Prop :=
  match ev with
  | EvSetTransform child k =>
      enabled = true /\
      exists W H,
        k = scale_factor W H
              (Number_ (getAttribute "width" (attributes child)))
              (Number_ (getAttribute "height" (attributes child)))
  | _ => True
  end.

(** What every step other than the collapse of a tracked child keeps. *)
Definition frame (s s' : State) : Prop :=
  children_ s' = children_ s /\ totalChildren_ s' = totalChildren_ s /\
  scaleContent_ s' = scaleContent_ s /\ container_ s' = container_ s.

(** A trace whose transforms are in order and that holds no request to
    collapse the component through [attemptCollapse]. *)
Definition quiet (Number_ : option string -> num) (enabled : bool)
           (t : list Event) : Prop :=
  Forall (transform_ok Number_ enabled) t /\
  Forall (fun ev => is_attemptCollapse ev = false) t.

(** The counter exceeds the number of tracked children by [k]. *)
Definition counter_inv (k : Z) (s : State) : Prop :=
  totalChildren_ s = Z.of_nat (List.length (children_ s)) + k.

(** The end-to-end scenario of a component with the three real child nodes
    [nodes], whose element children [e1] and [e2] collapse in turn: the
    counter after build, after the first and after the second collapse, and
    the number of self-collapse requests issued. *)
Definition three_children_scenario (Number_ : option string -> num)
           (element : Node) (nodes : list Node) (e1 e2 : Node)
  : Z * Z * Z * nat :=
  let s0 := fst (built element nodes) in
  let r1 := step Number_ (CbCollapsed e1 Fulfilled) s0 in
  let r2 := step Number_ (CbCollapsed e2 Fulfilled) (fst r1) in
  (totalChildren_ s0, totalChildren_ (fst r1), totalChildren_ (fst r2),
   List.length (filter is_attemptCollapse (snd r1 ++ snd r2))).

(** Kinds of host calls. *)
Definition is_forcedCollapse (ev : Event) : bool :=
  match ev with EvCollapse => true | _ => false end.

(** The host calls of the build phase: ownership, the console warning and
    the construction of the clip and container. *)
Definition is_buildEffect (ev : Event) : bool :=
  match ev with
  | EvSetAsOwner _ | EvConsoleWarn _ | EvReparent _ | EvAppendClip
  | EvAddToFixedLayer _ => true
  | _ => false
  end.

(** Layout scheduling and the subscription to the built event. *)
Definition is_layoutRequest (ev : Event) : bool :=
  match ev with EvScheduleLayout _ | EvListenBuilt => true | _ => false end.

(** A layout callback whose position check fails. *)
Definition rejected_layout (cb : Callback) : bool :=
  match cb with
  | CbLayout H D T => negb (position_accepted H D T)
  | _ => false
  end.


(** What one listener of the built event does for an element [target]:
    nothing unless the component owns it; otherwise it schedules the layout
    of the target and, when scaling is on, scales it. *)
Definition built_handler_trace (Number_ : option string -> num)
           (target : Node) (ownedByThis : bool) (W H : num) (s : State)
  : list Event :=
  if isElement target && ownedByThis then
    EvScheduleLayout [target]
    :: (if scaleContent_ s then
          [EvConsoleLogViewport W H;
           EvConsoleLogChild (Number_ (getAttribute "width" (attributes target)))
                             (Number_ (getAttribute "height" (attributes target)));
           EvSetTransform target
             (scale_factor W H
                (Number_ (getAttribute "width" (attributes target)))
                (Number_ (getAttribute "height" (attributes target))))]
        else [])
  else [].

(** The relation [x <= y] on numbers, as a proposition. *)
Definition num_leq (x y : num) : Prop := num_le x y = true.

(** The nodes a trace makes the component the owner of, and the nodes it
    moves into the container, in the order of the calls. *)
Definition owned_nodes (t : list Event) : list Node :=
  flat_map (fun ev => match ev with EvSetAsOwner c => [c] | _ => [] end) t.

Definition reparented_nodes (t : list Event) : list Node :=
  flat_map (fun ev => match ev with EvReparent ns => ns | _ => [] end) t.

(** Concrete nodes for the examples. *)
Definition elem (id : nat) (layout : option Layout)
           (attrs : list (string * string)) : Node :=
  mkNode id 1 [] layout attrs.
Definition text (id : nat) (content : string) : Node :=
  mkNode id 3 (code_units content) None [].
Definition carpet (attrs : list (string * string)) : Node :=
  mkNode 0 1 [] (Some FIXED_HEIGHT) attrs.

(** ** Lists: [indexOf] and [splice] *)

Lemma indexOf_from_absent (child : Node) (l : list Node) (i : Z) :
  existsb (fun x => same_node x child) l = false ->
  indexOf_from child l i = -1.
Proof.
  revert i. induction l as [|x r IH]; intros i; simpl; [reflexivity|].
  destruct (same_node x child); simpl; [discriminate|]. intro E. now apply IH.
Qed.

(** When the node occurs, [indexOf] is the position of its first occurrence. *)
Lemma indexOf_from_present (child : Node) (l : list Node) (i : Z) :
  existsb (fun x => same_node x child) l = true ->
  exists l1 x l2,
    l = l1 ++ x :: l2 /\ same_node x child = true /\
    existsb (fun y => same_node y child) l1 = false /\
    indexOf_from child l i = i + Z.of_nat (List.length l1).
Proof.
  revert i. induction l as [|x r IH]; intros i; simpl; [discriminate|].
  destruct (same_node x child) eqn:E; simpl.
  - intros _. exists [], x, r. simpl. repeat split; auto. lia.
  - intro Hr. destruct (IH (i + 1) Hr) as (l1 & y & l2 & -> & Hy & Hl1 & Hidx).
    exists (x :: l1), y, l2. simpl. rewrite E, Hl1, Hidx.
    repeat split; auto. lia.
Qed.

Lemma splice1_at (l1 l2 : list Node) (x : Node) :
  splice1 (Z.of_nat (List.length l1)) (l1 ++ x :: l2) = l1 ++ l2.
Proof.
  unfold splice1.
  assert (Hlen : List.length (l1 ++ x :: l2) = (List.length l1 + S (List.length l2))%nat)
    by (rewrite length_app; reflexivity).
  rewrite Hlen.
  destruct (Z.of_nat (List.length l1) <? 0) eqn:E; [apply Z.ltb_lt in E; lia|].
  rewrite Z.min_l by lia. rewrite Nat2Z.id.
  rewrite firstn_app, firstn_all, Nat.sub_diag. simpl. rewrite app_nil_r.
  rewrite skipn_app, skipn_all2 by lia. simpl.
  replace (List.length l1 + 1 - List.length l1)%nat with 1%nat by lia.
  reflexivity.
Qed.

Lemma tracked_existsb (child : Node) (s : State) :
  tracked child s <-> existsb (fun x => same_node x child) (children_ s) = true.
Proof.
  unfold tracked. rewrite existsb_exists. reflexivity.
Qed.

Lemma indexOf_from_first (child : Node) (l1 l2 : list Node) (x : Node) (i : Z) :
  same_node x child = true ->
  existsb (fun y => same_node y child) l1 = false ->
  indexOf_from child (l1 ++ x :: l2) i = i + Z.of_nat (List.length l1).
Proof.
  intros Hx. revert i. induction l1 as [|y r IH]; intros i; simpl.
  - rewrite Hx. intros _. lia.
  - destruct (same_node y child); simpl; [discriminate|].
    intro Hr. rewrite IH by assumption. lia.
Qed.

(** ** The child-collapse callback, case by case *)

Lemma collapsedCallback_untracked (child : Node) (p : Promise) (s : State) :
  existsb (fun x => same_node x child) (children_ s) = false ->
  collapsedCallback child p s = (s, [], Return None).
Proof.
  intro H. unfold collapsedCallback, bind, get, indexOf. simpl.
  rewrite (indexOf_from_absent _ _ _ H). reflexivity.
Qed.

Lemma collapsedCallback_first (child : Node) (p : Promise) (s : State)
      (l1 l2 : list Node) (x : Node) :
  children_ s = l1 ++ x :: l2 ->
  same_node x child = true ->
  existsb (fun y => same_node y child) l1 = false ->
  collapsedCallback child p s =
  (set_totalChildren_ (totalChildren_ s - 1) (set_children_ (l1 ++ l2) s),
   if totalChildren_ s - 1 =? 0 then [EvAttemptCollapse] else [],
   Return (if totalChildren_ s - 1 =? 0 then Some Fulfilled else None)).
Proof.
  intros Hc Hx Hl1. unfold collapsedCallback, bind, get, modify, indexOf. simpl.
  rewrite Hc, (indexOf_from_first child l1 l2 x 0 Hx Hl1). simpl.
  destruct (Z.of_nat (List.length l1) >? -1) eqn:E.
  - rewrite splice1_at. simpl.
    destruct (totalChildren_ s - 1 =? 0); simpl; [|reflexivity].
    destruct p; reflexivity.
  - rewrite Z.gtb_ltb in E. apply Z.ltb_ge in E. lia.
Qed.

(** Every call either leaves the tracked list alone or removes the first
    occurrence of the child, decrementing the counter by one. *)
Lemma collapsedCallback_cases (child : Node) (p : Promise) (s : State) :
  (existsb (fun x => same_node x child) (children_ s) = false /\
   collapsedCallback child p s = (s, [], Return None)) \/
  (exists l1 x l2,
      children_ s = l1 ++ x :: l2 /\ same_node x child = true /\
      existsb (fun y => same_node y child) l1 = false /\
      collapsedCallback child p s =
      (set_totalChildren_ (totalChildren_ s - 1) (set_children_ (l1 ++ l2) s),
       if totalChildren_ s - 1 =? 0 then [EvAttemptCollapse] else [],
       Return (if totalChildren_ s - 1 =? 0 then Some Fulfilled else None))).
Proof.
  destruct (existsb (fun x => same_node x child) (children_ s)) eqn:E.
  - right. destruct (indexOf_from_present _ _ 0 E) as (l1 & x & l2 & Hc & Hx & Hl1 & _).
    exists l1, x, l2. repeat split; auto. now apply (collapsedCallback_first child p s l1 l2 x).
  - left. split; auto. now apply collapsedCallback_untracked.
Qed.

(** ** C1: the position check of the layout phase *)

Lemma assertPosition_accepts (H D T : num) (s : State) :
  position_accepted H D T = true ->
  assertPosition_ H D T s = (s, [], Return tt).
Proof.
  unfold position_accepted, assertPosition_, bind, userAssert, num_ge, num_le.
  intro Hacc. apply andb_prop in Hacc. destruct Hacc as [H1 H2].
  rewrite H1. simpl. rewrite H2. reflexivity.
Qed.

Lemma assertPosition_rejects (H D T : num) (s : State) :
  position_accepted H D T = false ->
  exists e, assertPosition_ H D T s = (s, [], Throw e) /\
            (e = PositionTooEarly T (num_mul H lit_0_75) \/
             e = PositionTooLate T (num_sub D (num_mul H lit_0_95))).
Proof.
  unfold position_accepted, assertPosition_, bind, userAssert, num_ge, num_le.
  intro Hacc. apply andb_false_iff in Hacc.
  destruct (SFleb (num_mul H lit_0_75) T) eqn:E1; simpl.
  - destruct Hacc as [Hacc|Hacc]; [discriminate|]. rewrite Hacc.
    eexists. split; [reflexivity|]. now right.
  - eexists. split; [reflexivity|]. now left.
Qed.

Lemma layoutCallback_cases (s : State) (H D T : num) :
  (position_accepted H D T = true /\
   layoutCallback H D T s =
   (set_firstLayoutCompleted_ true (add_builtListener s),
    [EvScheduleLayout (children_ s); EvListenBuilt],
    Return Fulfilled)) \/
  (position_accepted H D T = false /\
   exists e,
     assertPosition_ H D T s = (s, [], Throw e) /\
     (e = PositionTooEarly T (num_mul H lit_0_75) \/
      e = PositionTooLate T (num_sub D (num_mul H lit_0_95))) /\
     layoutCallback H D T s = (s, [EvCollapse], Throw e)).
Proof.
  destruct (position_accepted H D T) eqn:Hacc; [left | right]; split; auto.
  - pose proof (assertPosition_accepts H D T s Hacc) as Ha.
    unfold layoutCallback, bind, try_catch. rewrite Ha. reflexivity.
  - destruct (assertPosition_rejects H D T s Hacc) as (e & He & Hkind).
    exists e. repeat split; auto.
    unfold layoutCallback, bind, try_catch. rewrite He. reflexivity.
Qed.

(** C1.  For viewport height [H], document scroll height [D] and top offset
    [T], [layoutCallback] completes (returns its resolved promise) exactly
    when [0.75 * H <= T <= D - 0.95 * H].  On acceptance it schedules the
    layout of the tracked children, subscribes to the built event and marks
    the first layout as completed.  When either bound is violated, the only
    host call is the forced collapse, issued before the position error of
    [assertPosition_] is rethrown to the host, and no field changes. *)
Theorem layoutCallback_position (s : State) (H D T : num) :
  (position_accepted H D T = true <->
   outcome_of (layoutCallback H D T s) = Return Fulfilled) /\
  (position_accepted H D T = true ->
   trace_of (layoutCallback H D T s)
     = [EvScheduleLayout (children_ s); EvListenBuilt] /\
   state_of (layoutCallback H D T s)
     = set_firstLayoutCompleted_ true (add_builtListener s)) /\
  (position_accepted H D T = false ->
   exists e,
     assertPosition_ H D T s = (s, [], Throw e) /\
     (e = PositionTooEarly T (num_mul H lit_0_75) \/
      e = PositionTooLate T (num_sub D (num_mul H lit_0_95))) /\
     layoutCallback H D T s = (emit EvCollapse ;; throw e) s /\
     layoutCallback H D T s = (s, [EvCollapse], Throw e)).
Proof.
  destruct (layoutCallback_cases s H D T)
    as [[Hacc Hr] | [Hacc (e & He & Hkind & Hr)]]; rewrite Hacc, Hr.
  - repeat split; auto; discriminate.
  - split; [|split].
    + split; discriminate.
    + discriminate.
    + intros _. exists e. repeat split; auto.
Qed.

(** ** C2: the visible-children filter *)

Lemma test_nonspace_iff (s : list N) :
  test_nonspace s = true <-> exists c, In c s /\ js_whitespace c = false.
Proof.
  unfold test_nonspace. rewrite existsb_exists.
  split; intros (c & Hin & Hc); exists c; split; auto.
  - now apply negb_true_iff.
  - now apply negb_true_iff.
Qed.

Lemma visible_test_iff (node : Node) :
  (if nodeType node =? 1 then true
   else if nodeType node =? 3 then test_nonspace (textContent node)
        else false) = true <-> retained node.
Proof.
  unfold retained, nonblank_text.
  destruct (nodeType node =? 1) eqn:E1.
  - apply Z.eqb_eq in E1. split; auto.
  - apply Z.eqb_neq in E1. destruct (nodeType node =? 3) eqn:E3.
    + apply Z.eqb_eq in E3. rewrite test_nonspace_iff. split.
      * intro H. right. split; auto.
      * intros [H|[_ H]]; [contradiction | exact H].
    + apply Z.eqb_neq in E3. split; [discriminate|].
      intros [H|[H _]]; contradiction.
Qed.

Lemma filter_Subseq {A : Type} (f : A -> bool) (l : list A) :
  Subseq (filter f l) l.
Proof.
  induction l as [|x r IH]; simpl; [constructor|].
  destruct (f x); now constructor.
Qed.

(** C2.  The visible-children filter returns a subsequence of its argument
    (order preserved), a node is in the result exactly when it is in the
    argument and is an element or a text node with a non-whitespace
    character, and the result is computed node by node: it distributes over
    concatenation, keeps a retained node and drops any other. *)
Theorem visibileChildren_exact (nodes : list Node) :
  Subseq (visibileChildren_ nodes) nodes /\
  (forall node, In node (visibileChildren_ nodes) <->
                In node nodes /\ retained node) /\
  (forall l1 l2, nodes = l1 ++ l2 ->
                 visibileChildren_ nodes
                 = visibileChildren_ l1 ++ visibileChildren_ l2) /\
  (forall node, retained node -> visibileChildren_ [node] = [node]) /\
  (forall node, ~ retained node -> visibileChildren_ [node] = []).
Proof.
  unfold visibileChildren_.
  split; [apply filter_Subseq|].
  split.
  { intro node. rewrite filter_In, visible_test_iff. reflexivity. }
  split.
  { intros l1 l2 ->. apply filter_app. }
  split.
  - intros node Hr. simpl. apply visible_test_iff in Hr. now rewrite Hr.
  - intros node Hr. simpl.
    destruct (if nodeType node =? 1 then true
              else if nodeType node =? 3 then test_nonspace (textContent node)
                   else false) eqn:E; auto.
    apply visible_test_iff in E. contradiction.
Qed.

(** ** C3: the child-collapse callback on a tracked child *)

(** C3.  When [child] is tracked, [collapsedCallback] removes its first
    occurrence from [children_], decrements [totalChildren_] by one, leaves
    every other field alone, and requests the collapse of the component
    exactly when the decremented counter is zero.  Whether the host's
    collapse promise is fulfilled or rejected, the callback returns normally
    and the promise it returns is fulfilled. *)
Theorem collapsedCallback_tracked (child : Node) (hostCollapse : Promise)
        (s : State) (Htracked : tracked child s) :
  (exists l1 x l2,
      children_ s = l1 ++ x :: l2 /\ same_node x child = true /\
      (forall y, In y l1 -> same_node y child = false) /\
      state_of (collapsedCallback child hostCollapse s)
      = set_totalChildren_ (totalChildren_ s - 1) (set_children_ (l1 ++ l2) s)) /\
  totalChildren_ (state_of (collapsedCallback child hostCollapse s))
  = totalChildren_ s - 1 /\
  (totalChildren_ s - 1 = 0 ->
   trace_of (collapsedCallback child hostCollapse s) = [EvAttemptCollapse] /\
   outcome_of (collapsedCallback child hostCollapse s) = Return (Some Fulfilled)) /\
  (totalChildren_ s - 1 <> 0 ->
   trace_of (collapsedCallback child hostCollapse s) = [] /\
   outcome_of (collapsedCallback child hostCollapse s) = Return None).
Proof.
  apply tracked_existsb in Htracked.
  destruct (collapsedCallback_cases child hostCollapse s)
    as [[Habs _] | (l1 & x & l2 & Hc & Hx & Hl1 & Hr)]; [congruence|].
  rewrite Hr. unfold state_of, trace_of, outcome_of. simpl.
  split; [|split; [reflexivity|split]].
  - exists l1, x, l2. repeat split; auto.
    intros y Hy. destruct (same_node y child) eqn:E; auto.
    assert (existsb (fun y => same_node y child) l1 = true)
      by (apply existsb_exists; eauto).
    congruence.
  - intro Hz. apply Z.eqb_eq in Hz. rewrite Hz. auto.
  - intro Hz. apply Z.eqb_neq in Hz. rewrite Hz. auto.
Qed.

(** ** C5: enabling of scaling at build time *)

Lemma forEach_setAsOwner (l : list Node) (s : State) :
  forEach l (fun child => emit (EvSetAsOwner child)) s
  = (s, map EvSetAsOwner l, Return tt).
Proof.
  induction l as [|x r IH]; simpl; [reflexivity|].
  unfold bind. unfold emit at 1. rewrite IH. reflexivity.
Qed.

Lemma Layout_eqb_eq (a b : Layout) : Layout_eqb a b = true <-> a = b.
Proof.
  destruct a, b; simpl; split; intro H; try reflexivity; discriminate.
Qed.

Lemma single_fixed_child_iff (children : list Node) :
  single_fixed_child children = true <->
  exists child, children = [child] /\ layout_ child = Some FIXED.
Proof.
  unfold single_fixed_child. split.
  - destruct children as [|c [|c' r]]; try discriminate.
    destruct (layout_ c) as [l|] eqn:E; try discriminate.
    intro H. apply Layout_eqb_eq in H. subst l. exists c. auto.
  - intros (c & -> & ->). reflexivity.
Qed.

Lemma assertScalable_result (s : State) :
  (single_fixed_child (children_ s) = true /\
   assertScalable_ s = (s, [], Return tt)) \/
  (single_fixed_child (children_ s) = false /\
   exists e, assertScalable_ s = (s, [], Throw e)).
Proof.
  unfold assertScalable_, bind, get, userAssert, single_fixed_child.
  cbv zeta.
  destruct (children_ s) as [|c [|c' r]].
  - right. split; auto. eexists. reflexivity.
  - simpl. destruct (layout_ c) as [l|]; simpl.
    + destruct (Layout_eqb l FIXED); [left|right]; split; auto.
      eexists. reflexivity.
    + right. split; auto. eexists. reflexivity.
  - right. split; auto.
    replace (Z.of_nat (List.length (c :: c' :: r)) =? 1) with false
      by (symmetry; apply Z.eqb_neq; simpl List.length; lia).
    eexists. reflexivity.
Qed.

(** The whole of [buildCallback] on a freshly constructed component. *)
Lemma buildCallback_result (element : Node) (nodes : list Node) :
  buildCallback element nodes constructed =
  (mkState (getRealChildren nodes)
           (Z.of_nat (List.length (visibileChildren_ nodes)))
           (Some nodes)
           (hasAttribute "scale-content" (attributes element)
            && single_fixed_child (getRealChildren nodes))
           false 0,
   map EvSetAsOwner (getRealChildren nodes)
   ++ (if hasAttribute "scale-content" (attributes element)
          && negb (single_fixed_child (getRealChildren nodes))
       then [EvConsoleWarn "Can't scale"] else [])
   ++ [EvReparent nodes; EvAppendClip; EvAddToFixedLayer false],
   Return tt).
Proof.
  unfold buildCallback, bind at 1 2 3 4. unfold modify at 1 2 3. unfold get at 1.
  simpl. unfold bind at 1. rewrite forEach_setAsOwner.
  unfold bind at 1. unfold when.
  destruct (hasAttribute "scale-content" (attributes element)); simpl.
  - unfold try_catch, bind at 1.
    match goal with
    | |- context [assertScalable_ ?st] =>
        destruct (assertScalable_result st) as [[Hb Hr] | [Hb [e Hr]]];
        rewrite Hr; simpl in Hb; rewrite Hb
    end; reflexivity.
  - reflexivity.
Qed.

(** C5.  [buildCallback] on a freshly constructed component returns
    normally, and afterwards [scaleContent_] is true exactly when the
    element has the [scale-content] attribute, there is exactly one tracked
    child and that child's layout is [FIXED].  When the attribute is present
    and one of the two child conditions fails, the build logs the warning
    and still returns normally with scaling off. *)
Theorem buildCallback_scaling (element : Node) (nodes : list Node) :
  outcome_of (buildCallback element nodes constructed) = Return tt /\
  (scaleContent_ (state_of (buildCallback element nodes constructed)) = true <->
   hasAttribute "scale-content" (attributes element) = true /\
   exists child,
     children_ (state_of (buildCallback element nodes constructed)) = [child] /\
     layout_ child = Some FIXED) /\
  (hasAttribute "scale-content" (attributes element) = true ->
   scaleContent_ (state_of (buildCallback element nodes constructed)) = false ->
   In (EvConsoleWarn "Can't scale")
      (trace_of (buildCallback element nodes constructed))).
Proof.
  rewrite buildCallback_result. unfold outcome_of, state_of, trace_of. simpl.
  split; [reflexivity|]. split.
  - rewrite andb_true_iff, single_fixed_child_iff. reflexivity.
  - intros Ha Hs. rewrite Ha in *. simpl in Hs. rewrite Hs. simpl.
    apply in_or_app. right. now left.
Qed.

(** ** Host callbacks, one step at a time *)

Section Steps.

Variable Number_ : option string -> num.

Lemma applyScaleTransform_result (W H : num) (child : option Node) (s : State) :
  applyScaleTransform_ Number_ W H child s =
  match child with
  | None => (s, [], Throw TypeError)
  | Some c =>
      (s,
       [EvConsoleLogViewport W H;
        EvConsoleLogChild (Number_ (getAttribute "width" (attributes c)))
                          (Number_ (getAttribute "height" (attributes c)));
        EvSetTransform c
          (scale_factor W H
             (Number_ (getAttribute "width" (attributes c)))
             (Number_ (getAttribute "height" (attributes c))))],
       Return tt)
  end.
Proof. destruct child; reflexivity. Qed.

Lemma applyScaleTransform_ok (W H : num) (child : option Node) (s : State) :
  fst (fst (applyScaleTransform_ Number_ W H child s)) = s /\
  Forall (transform_ok Number_ true)
         (snd (fst (applyScaleTransform_ Number_ W H child s))) /\
  Forall (fun ev => is_attemptCollapse ev = false)
         (snd (fst (applyScaleTransform_ Number_ W H child s))).
Proof.
  rewrite applyScaleTransform_result. destruct child as [c|]; simpl.
  - split; [reflexivity|]. split; repeat constructor. now exists W, H.
  - repeat split; constructor.
Qed.

Lemma frame_refl (s : State) : frame s s.
Proof. repeat split. Qed.

Lemma quiet_app (b : bool) (t1 t2 : list Event) :
  quiet Number_ b t1 -> quiet Number_ b t2 -> quiet Number_ b (t1 ++ t2).
Proof.
  unfold quiet. intros [A1 A2] [B1 B2]. split; apply Forall_app; auto.
Qed.

Lemma onMeasureChanged_step (width W H : num) (s : State) :
  frame s (fst (effects (onMeasureChanged Number_ width W H) s)) /\
  quiet Number_ (scaleContent_ s) (snd (effects (onMeasureChanged Number_ width W H) s)).
Proof.
  unfold effects, onMeasureChanged, listenBuilt, bind, emit, get, modify, when.
  simpl.
  destruct (firstLayoutCompleted_ s); simpl;
    destruct (scaleContent_ s) eqn:Es; simpl;
    rewrite ?applyScaleTransform_result;
    try (destruct (children_ s) as [|c r] eqn:Ec; simpl);
    (split; [repeat split; auto | split; repeat constructor; eauto]).
Qed.

Lemma viewportCallback_step (inViewport b : bool) (s : State) :
  frame s (fst (effects (viewportCallback inViewport) s)) /\
  quiet Number_ b (snd (effects (viewportCallback inViewport) s)).
Proof.
  unfold effects, viewportCallback, bind, get, emit. simpl.
  split; [apply frame_refl | split; repeat constructor].
Qed.

Lemma layoutCallback_step (H D T : num) (b : bool) (s : State) :
  frame s (fst (effects (layoutCallback H D T) s)) /\
  quiet Number_ b (snd (effects (layoutCallback H D T) s)).
Proof.
  unfold effects.
  destruct (layoutCallback_cases s H D T)
    as [[_ Hr] | [_ (e & _ & _ & Hr)]]; rewrite Hr; simpl.
  - split; [repeat split | split; repeat constructor].
  - split; [apply frame_refl | split; repeat constructor].
Qed.

Lemma layoutBuiltChild_step (target : Node) (owned : bool) (W H : num) (s : State) :
  fst (effects (layoutBuiltChild_ Number_ target owned W H) s) = s /\
  quiet Number_ (scaleContent_ s)
        (snd (effects (layoutBuiltChild_ Number_ target owned W H) s)).
Proof.
  unfold effects, layoutBuiltChild_, userAssert, bind, emit, get, when.
  destruct (isElement target); simpl;
    [| split; [reflexivity | split; constructor]].
  destruct owned; simpl; [| split; [reflexivity | split; constructor]].
  destruct (scaleContent_ s) eqn:Es; simpl;
    (split; [reflexivity | split; repeat constructor]).
  now exists W, H.
Qed.

Lemma dispatchBuilt_step (n : nat) (target : Node) (owned : bool) (W H : num)
      (s : State) :
  fst (dispatchBuilt Number_ n target owned W H s) = s /\
  quiet Number_ (scaleContent_ s) (snd (dispatchBuilt Number_ n target owned W H s)).
Proof.
  induction n as [|n IH]; simpl.
  - split; [reflexivity | split; constructor].
  - destruct (layoutBuiltChild_step target owned W H s) as [Hs Hq].
    destruct (effects (layoutBuiltChild_ Number_ target owned W H) s) as [s1 t1].
    simpl in Hs, Hq. subst s1.
    destruct IH as [Hs2 Hq2].
    destruct (dispatchBuilt Number_ n target owned W H s) as [s2 t2].
    simpl in *. split; [assumption | now apply quiet_app].
Qed.

(** A step other than a collapse of a tracked child keeps the tracked list,
    the counter and the scaling flag, and requests no collapse through
    [attemptCollapse]; a collapse of a tracked child removes its first
    occurrence and decrements the counter. *)
Lemma step_cases (cb : Callback) (s : State) :
  (frame s (fst (step Number_ cb s)) /\
   quiet Number_ (scaleContent_ s) (snd (step Number_ cb s))) \/
  (exists child p l1 x l2,
      cb = CbCollapsed child p /\
      children_ s = l1 ++ x :: l2 /\ same_node x child = true /\
      existsb (fun y => same_node y child) l1 = false /\
      step Number_ cb s =
      (set_totalChildren_ (totalChildren_ s - 1) (set_children_ (l1 ++ l2) s),
       if totalChildren_ s - 1 =? 0 then [EvAttemptCollapse] else [])).
Proof.
  destruct cb as [l | width W H | inV | H D T | target owned W H | child p | ];
    simpl.
  - left. split; [apply frame_refl | split; constructor].
  - left. apply onMeasureChanged_step.
  - left. apply viewportCallback_step.
  - left. apply layoutCallback_step.
  - left. destruct (dispatchBuilt_step (builtListeners s) target owned W H s)
      as [Hs Hq].
    rewrite Hs. split; [apply frame_refl | assumption].
  - destruct (collapsedCallback_cases child p s)
      as [[Habs Hr] | (l1 & x & l2 & Hc & Hx & Hl1 & Hr)].
    + left. unfold effects. rewrite Hr. simpl.
      split; [apply frame_refl | split; constructor].
    + right. exists child, p, l1, x, l2. unfold effects. rewrite Hr.
      repeat split; auto.
  - left. unfold effects, getChildren, bind, get, ret. simpl.
    split; [apply frame_refl | split; constructor].
Qed.

End Steps.

(** ** The state after build *)

Lemma built_result (element : Node) (nodes : list Node) :
  built element nodes =
  (mkState (getRealChildren nodes)
           (Z.of_nat (List.length (visibileChildren_ nodes)))
           (Some nodes)
           (hasAttribute "scale-content" (attributes element)
            && single_fixed_child (getRealChildren nodes))
           false 0,
   map EvSetAsOwner (getRealChildren nodes)
   ++ (if hasAttribute "scale-content" (attributes element)
          && negb (single_fixed_child (getRealChildren nodes))
       then [EvConsoleWarn "Can't scale"] else [])
   ++ [EvReparent nodes; EvAppendClip; EvAddToFixedLayer false]).
Proof.
  unfold built, effects. rewrite buildCallback_result. reflexivity.
Qed.

(** The visible nodes are the elements and the non-blank text nodes. *)
Lemma visible_length (nodes : list Node) :
  List.length (visibileChildren_ nodes)
  = (List.length (filter isElement nodes)
     + List.length (filter nonblank_textb nodes))%nat.
Proof.
  unfold visibileChildren_, nonblank_textb, isElement, isText,
    ELEMENT_NODE, TEXT_NODE.
  induction nodes as [|x r IH]; simpl; [reflexivity|].
  destruct (nodeType x =? 1) eqn:E1; simpl.
  - apply Z.eqb_eq in E1.
    replace (nodeType x =? 3) with false by (symmetry; apply Z.eqb_neq; lia).
    simpl. now rewrite IH.
  - destruct (nodeType x =? 3); simpl.
    + destruct (test_nonspace (textContent x)); simpl; rewrite IH; lia.
    + exact IH.
Qed.

Lemma nonblank_textb_iff (node : Node) :
  nonblank_textb node = true <-> nonblank_text node.
Proof.
  unfold nonblank_textb, nonblank_text, isText, TEXT_NODE.
  rewrite andb_true_iff, Z.eqb_eq, test_nonspace_iff. reflexivity.
Qed.

Lemma built_counter_inv (element : Node) (nodes : list Node) :
  counter_inv (Z.of_nat (List.length (filter nonblank_textb nodes)))
              (fst (built element nodes)).
Proof.
  rewrite built_result. unfold counter_inv, getRealChildren. simpl.
  rewrite visible_length. lia.
Qed.

(** Dropping nodes from a list of distinct nodes leaves distinct nodes. *)
Lemma distinct_nodes_filter (keep : Node -> bool) (nodes : list Node) :
  distinct_nodes nodes -> distinct_nodes (filter keep nodes).
Proof.
  unfold distinct_nodes.
  induction nodes as [|x r IH]; simpl; intro H; [constructor|].
  inversion H as [|? ? Hnotin Hr]; subst.
  destruct (keep x); simpl; auto.
  constructor; auto.
  intro Hin. apply Hnotin. apply in_map_iff in Hin.
  destruct Hin as (y & Hy & Hin). apply filter_In in Hin.
  apply in_map_iff. exists y. tauto.
Qed.

Lemma built_distinct (element : Node) (nodes : list Node) :
  distinct_nodes nodes -> distinct_nodes (children_ (fst (built element nodes))).
Proof.
  rewrite built_result. simpl. apply distinct_nodes_filter.
Qed.

(** ** Runs of host callbacks *)

Section Runs.

Variable Number_ : option string -> num.

Lemma run_app (cbs1 cbs2 : list Callback) (s : State) :
  run Number_ (cbs1 ++ cbs2) s =
  (fst (run Number_ cbs2 (fst (run Number_ cbs1 s))),
   snd (run Number_ cbs1 s) ++ snd (run Number_ cbs2 (fst (run Number_ cbs1 s)))).
Proof.
  revert s. induction cbs1 as [|cb r IH]; intro s; simpl.
  - now destruct (run Number_ cbs2 s).
  - destruct (step Number_ cb s) as [s1 t1]. rewrite IH.
    destruct (run Number_ r s1) as [s2 t2]. simpl.
    now rewrite app_assoc.
Qed.

(** The scaling flag is fixed once build is over, and every transform of a
    run is in order for that flag. *)
Lemma run_transforms (cbs : list Callback) (s : State) :
  scaleContent_ (fst (run Number_ cbs s)) = scaleContent_ s /\
  Forall (transform_ok Number_ (scaleContent_ s)) (snd (run Number_ cbs s)).
Proof.
  revert s. induction cbs as [|cb r IH]; intro s; simpl.
  - split; [reflexivity | constructor].
  - destruct (step_cases Number_ cb s)
      as [[(_ & _ & Hsc & _) [Hq _]] | (child & p & l1 & x & l2 & _ & _ & _ & _ & Hr)].
    + destruct (step Number_ cb s) as [s1 t1]. simpl in *.
      destruct (IH s1) as [Hs2 Ht2]. destruct (run Number_ r s1) as [s2 t2].
      simpl in *. rewrite Hsc in *. split; [assumption|].
      apply Forall_app. split; assumption.
    + rewrite Hr.
      match goal with |- context [run Number_ r ?st] =>
        destruct (IH st) as [Hs2 Ht2]; destruct (run Number_ r st) as [s2 t2]
      end.
      simpl in *. split; [assumption|].
      apply Forall_app. split; [|assumption].
      destruct (totalChildren_ s - 1 =? 0); repeat constructor.
Qed.

Lemma step_counter_inv (k : Z) (cb : Callback) (s : State) :
  counter_inv k s -> counter_inv k (fst (step Number_ cb s)).
Proof.
  unfold counter_inv. intro Hinv.
  destruct (step_cases Number_ cb s)
    as [[(Hc & Ht & _ & _) _] | (child & p & l1 & x & l2 & _ & Hc & _ & _ & Hr)].
  - rewrite Hc, Ht. exact Hinv.
  - rewrite Hr. simpl. rewrite Hc in Hinv. rewrite length_app in *.
    simpl in Hinv. lia.
Qed.

Lemma run_counter_inv (k : Z) (cbs : list Callback) (s : State) :
  counter_inv k s -> counter_inv k (fst (run Number_ cbs s)).
Proof.
  revert s. induction cbs as [|cb r IH]; intros s Hinv; simpl; [exact Hinv|].
  pose proof (step_counter_inv k cb s Hinv) as H1.
  destruct (step Number_ cb s) as [s1 t1]. simpl in H1.
  specialize (IH s1 H1). destruct (run Number_ r s1) as [s2 t2]. exact IH.
Qed.

(** A step changes the counter only by the single decrement of a collapse
    of a tracked child. *)
Lemma step_counter (cb : Callback) (s : State) :
  totalChildren_ (fst (step Number_ cb s)) = totalChildren_ s \/
  (totalChildren_ (fst (step Number_ cb s)) = totalChildren_ s - 1 /\
   exists child p, cb = CbCollapsed child p /\ tracked child s).
Proof.
  destruct (step_cases Number_ cb s)
    as [[(_ & Ht & _ & _) _] | (child & p & l1 & x & l2 & Hcb & Hc & Hx & _ & Hr)].
  - now left.
  - right. rewrite Hr. simpl. split; [reflexivity|].
    exists child, p. split; [assumption|].
    exists x. split; [|assumption]. rewrite Hc. apply in_elt.
Qed.

Lemma run_counter_le (cbs : list Callback) (s : State) :
  totalChildren_ (fst (run Number_ cbs s)) <= totalChildren_ s.
Proof.
  revert s. induction cbs as [|cb r IH]; intro s; simpl; [lia|].
  pose proof (step_counter cb s) as H1.
  destruct (step Number_ cb s) as [s1 t1]. simpl in H1.
  specialize (IH s1). destruct (run Number_ r s1) as [s2 t2]. simpl in *.
  destruct H1 as [H1 | [H1 _]]; lia.
Qed.

(** While the counter exceeds the number of tracked children, no run
    requests the collapse of the component through [attemptCollapse]. *)
Lemma run_no_attempt (k : Z) (cbs : list Callback) (s : State) :
  0 < k -> counter_inv k s ->
  Forall (fun ev => is_attemptCollapse ev = false) (snd (run Number_ cbs s)).
Proof.
  intro Hk. revert s. induction cbs as [|cb r IH]; intros s Hinv; simpl.
  - constructor.
  - pose proof (step_counter_inv k cb s Hinv) as H1.
    assert (Ht : Forall (fun ev => is_attemptCollapse ev = false)
                        (snd (step Number_ cb s))).
    { destruct (step_cases Number_ cb s)
        as [[_ [_ Hq]] | (child & p & l1 & x & l2 & _ & Hc & _ & _ & Hr)];
        [assumption|].
      rewrite Hr. simpl. unfold counter_inv in Hinv.
      rewrite Hc, length_app in Hinv. simpl in Hinv.
      replace (totalChildren_ s - 1 =? 0) with false
        by (symmetry; apply Z.eqb_neq; lia).
      constructor. }
    destruct (step Number_ cb s) as [s1 t1]. simpl in *.
    specialize (IH s1 H1). destruct (run Number_ r s1) as [s2 t2]. simpl in *.
    apply Forall_app. split; assumption.
Qed.

Lemma step_distinct (cb : Callback) (s : State) :
  distinct_nodes (children_ s) ->
  distinct_nodes (children_ (fst (step Number_ cb s))).
Proof.
  unfold distinct_nodes. intro Hd.
  destruct (step_cases Number_ cb s)
    as [[(Hc & _) _] | (child & p & l1 & x & l2 & _ & Hc & _ & _ & Hr)].
  - now rewrite Hc.
  - rewrite Hr. simpl. rewrite Hc, map_app in Hd. simpl in Hd.
    rewrite map_app. now apply NoDup_remove_1 in Hd.
Qed.

Lemma run_distinct (cbs : list Callback) (s : State) :
  distinct_nodes (children_ s) ->
  distinct_nodes (children_ (fst (run Number_ cbs s))).
Proof.
  revert s. induction cbs as [|cb r IH]; intros s Hd; simpl; [exact Hd|].
  pose proof (step_distinct cb s Hd) as H1.
  destruct (step Number_ cb s) as [s1 t1]. simpl in H1.
  specialize (IH s1 H1). destruct (run Number_ r s1) as [s2 t2]. exact IH.
Qed.

End Runs.

(** ** C6: the scale transform *)

Lemma built_trace_no_transform (element : Node) (nodes : list Node)
      (child : Node) (k : num) :
  ~ In (EvSetTransform child k) (snd (built element nodes)).
Proof.
  rewrite built_result. simpl. intro Hin.
  apply in_app_or in Hin. destruct Hin as [Hin | Hin].
  - apply in_map_iff in Hin. destruct Hin as (y & Hy & _). discriminate.
  - apply in_app_or in Hin. destruct Hin as [Hin | Hin].
    + destruct (hasAttribute "scale-content" (attributes element)
                && negb (single_fixed_child (getRealChildren nodes)));
        simpl in Hin; [destruct Hin as [Hin|[]]; discriminate | contradiction].
    + simpl in Hin. destruct Hin as [Hin|[Hin|[Hin|[]]]]; discriminate.
Qed.

(** C6.  Applying the scale transform to a child with declared size [w], [h]
    under a viewport [W] by [H] sets on that child the uniform scale
    [min(W / w, H / h)]; every transform set during a run of host callbacks
    has a factor of that form and is set only if [scaleContent_] was enabled,
    a flag that no callback after build changes; build itself sets no
    transform.  With a viewport of 800 by 600 and a child declared 400 by
    300 the factor is 2. *)
Theorem scale_transform_factor :
  (forall Number_ W H child s,
      applyScaleTransform_ Number_ W H (Some child) s =
      (s,
       [EvConsoleLogViewport W H;
        EvConsoleLogChild (Number_ (getAttribute "width" (attributes child)))
                          (Number_ (getAttribute "height" (attributes child)));
        EvSetTransform child
          (Math_min
             (num_div W (Number_ (getAttribute "width" (attributes child))))
             (num_div H (Number_ (getAttribute "height" (attributes child)))))],
       Return tt)) /\
  (forall Number_ cbs s child k,
      In (EvSetTransform child k) (snd (run Number_ cbs s)) ->
      scaleContent_ s = true /\
      exists W H,
        k = Math_min
              (num_div W (Number_ (getAttribute "width" (attributes child))))
              (num_div H (Number_ (getAttribute "height" (attributes child))))) /\
  (forall Number_ cbs s,
      scaleContent_ (fst (run Number_ cbs s)) = scaleContent_ s) /\
  (forall Number_ element nodes cbs child k,
      scaleContent_ (fst (built element nodes)) = false ->
      ~ In (EvSetTransform child k)
           (snd (built element nodes)
            ++ snd (run Number_ cbs (fst (built element nodes))))) /\
  scale_factor (num_of_Z 800) (num_of_Z 600)
               (Number_uint (Some "400"%string)) (Number_uint (Some "300"%string))
  = num_of_Z 2.
Proof.
  assert (Hrun : forall Number_ cbs s child k,
             In (EvSetTransform child k) (snd (run Number_ cbs s)) ->
             scaleContent_ s = true /\
             exists W H,
               k = Math_min
                     (num_div W (Number_ (getAttribute "width" (attributes child))))
                     (num_div H (Number_ (getAttribute "height" (attributes child))))).
  { intros Number_ cbs s child k Hin.
    destruct (run_transforms Number_ cbs s) as [_ Hall].
    rewrite Forall_forall in Hall. exact (Hall _ Hin). }
  split; [|split; [exact Hrun|split; [|split]]].
  - intros. apply (applyScaleTransform_result Number_ W H (Some child) s).
  - intros. apply run_transforms.
  - intros Number_ element nodes cbs child k Hoff Hin.
    apply in_app_or in Hin. destruct Hin as [Hin|Hin].
    + exact (built_trace_no_transform _ _ _ _ Hin).
    + apply Hrun in Hin. destruct Hin as [Hon _]. congruence.
  - vm_compute. reflexivity.
Qed.

(** ** C7: a second collapse of the same child *)

Lemma removed_child_untracked (child x : Node) (l1 l2 : list Node) :
  distinct_nodes (l1 ++ x :: l2) -> same_node x child = true ->
  existsb (fun y => same_node y child) (l1 ++ l2) = false.
Proof.
  unfold distinct_nodes, same_node. intros Hd Hx.
  apply Nat.eqb_eq in Hx.
  rewrite map_app in Hd. simpl in Hd. apply NoDup_remove_2 in Hd.
  destruct (existsb (fun y => nodeId y =? nodeId child)%nat (l1 ++ l2)) eqn:E;
    [|reflexivity].
  apply existsb_exists in E. destruct E as (y & Hy & Heq).
  apply Nat.eqb_eq in Heq. exfalso. apply Hd.
  rewrite <- map_app. apply in_map_iff. exists y. split; [congruence|assumption].
Qed.

(** C7.  A [collapsedCallback] for a child that is not (or no longer)
    tracked changes no field, issues no host call (so no collapse request)
    and returns nothing.  In particular, in any state reached from the build
    of a component whose child nodes are distinct objects, the child is no
    longer tracked after its first collapse, and a second call for it is
    such a no-op. *)
Theorem collapsedCallback_twice :
  (forall child p s,
      ~ tracked child s -> collapsedCallback child p s = (s, [], Return None)) /\
  (forall Number_ element nodes cbs child p1 p2,
      distinct_nodes nodes ->
      let s := fst (run Number_ cbs (fst (built element nodes))) in
      let s1 := state_of (collapsedCallback child p1 s) in
      ~ tracked child s1 /\
      collapsedCallback child p2 s1 = (s1, [], Return None)).
Proof.
  split.
  - intros child p s Hnot. apply collapsedCallback_untracked.
    destruct (existsb (fun x => same_node x child) (children_ s)) eqn:E;
      [|reflexivity].
    exfalso. apply Hnot. now apply tracked_existsb.
  - intros Number_ element nodes cbs child p1 p2 Hdistinct. cbv zeta.
    pose proof (run_distinct Number_ cbs _ (built_distinct element nodes Hdistinct))
      as Hd.
    set (s := fst (run Number_ cbs (fst (built element nodes)))) in *.
    assert (Habsent : existsb (fun x => same_node x child)
                        (children_ (state_of (collapsedCallback child p1 s)))
                      = false).
    { destruct (collapsedCallback_cases child p1 s)
        as [[Habs Hr] | (l1 & x & l2 & Hc & Hx & Hl1 & Hr)];
        rewrite Hr; unfold state_of; simpl; [assumption|].
      rewrite Hc in Hd. now apply removed_child_untracked with (x := x). }
    split.
    + rewrite tracked_existsb, Habsent. discriminate.
    + now apply collapsedCallback_untracked.
Qed.

(** ** C8: evolution of the counter *)

(** C8.  After build the counter is the number of element children plus the
    number of non-blank text children.  From then on, in every state reached
    by host callbacks it is at least zero; a further callback leaves it
    unchanged unless it is the collapse of a tracked child, which decrements
    it by exactly one; and it never grows along a run. *)
Theorem totalChildren_evolution (Number_ : option string -> num)
        (element : Node) (nodes : list Node) :
  totalChildren_ (fst (built element nodes))
  = Z.of_nat (List.length (filter isElement nodes))
    + Z.of_nat (List.length (filter nonblank_textb nodes)) /\
  (forall cbs,
      0 <= totalChildren_ (fst (run Number_ cbs (fst (built element nodes))))) /\
  (forall cbs cb,
      let s := fst (run Number_ cbs (fst (built element nodes))) in
      totalChildren_ (fst (step Number_ cb s)) = totalChildren_ s \/
      (totalChildren_ (fst (step Number_ cb s)) = totalChildren_ s - 1 /\
       exists child p, cb = CbCollapsed child p /\ tracked child s)) /\
  (forall cbs1 cbs2,
      totalChildren_ (fst (run Number_ (cbs1 ++ cbs2) (fst (built element nodes))))
      <= totalChildren_ (fst (run Number_ cbs1 (fst (built element nodes))))).
Proof.
  split; [|split; [|split]].
  - rewrite built_result. simpl. rewrite visible_length. lia.
  - intro cbs.
    pose proof (run_counter_inv Number_ _ cbs _ (built_counter_inv element nodes))
      as Hinv.
    unfold counter_inv in Hinv. lia.
  - intros cbs cb. apply step_counter.
  - intros cbs1 cbs2. rewrite run_app. simpl. apply run_counter_le.
Qed.

(** ** C9: counter and tracked children *)

(** C9.  In every state reached from build by host callbacks the counter is
    at least the number of tracked children; the difference is the number of
    non-blank text nodes counted at build.  Hence, if the component was built
    with a non-blank text node, the counter is never zero and no callback
    requests the collapse of the component through [attemptCollapse]; a run
    made of child collapses only issues no host call at all. *)
Theorem counter_bounds_tracked (Number_ : option string -> num)
        (element : Node) (nodes : list Node) (cbs : list Callback) :
  Z.of_nat (List.length
              (children_ (fst (run Number_ cbs (fst (built element nodes))))))
  <= totalChildren_ (fst (run Number_ cbs (fst (built element nodes)))) /\
  totalChildren_ (fst (run Number_ cbs (fst (built element nodes))))
  = Z.of_nat (List.length
                (children_ (fst (run Number_ cbs (fst (built element nodes))))))
    + Z.of_nat (List.length (filter nonblank_textb nodes)) /\
  ((exists t, In t nodes /\ nonblank_text t) ->
   totalChildren_ (fst (run Number_ cbs (fst (built element nodes)))) <> 0 /\
   (forall ev, In ev (snd (run Number_ cbs (fst (built element nodes)))) ->
               is_attemptCollapse ev = false) /\
   ((forall cb, In cb cbs -> exists child p, cb = CbCollapsed child p) ->
    snd (run Number_ cbs (fst (built element nodes))) = [])).
Proof.
  pose proof (run_counter_inv Number_ _ cbs _ (built_counter_inv element nodes))
    as Hinv.
  unfold counter_inv in Hinv.
  split; [lia|]. split; [exact Hinv|].
  intros (t & Hin & Ht).
  assert (Hk : 0 < Z.of_nat (List.length (filter nonblank_textb nodes))).
  { assert (In t (filter nonblank_textb nodes))
      by (apply filter_In; split; [assumption | now apply nonblank_textb_iff]).
    destruct (filter nonblank_textb nodes); [contradiction | simpl; lia]. }
  pose proof (run_no_attempt Number_ _ cbs _ Hk (built_counter_inv element nodes))
    as Hquiet.
  split; [lia|]. split.
  - now apply Forall_forall.
  - clear Hinv. revert Hquiet.
    generalize (fst (built element nodes)) as s.
    induction cbs as [|cb r IH]; intros s Hquiet Honly; simpl; [reflexivity|].
    destruct (Honly cb (or_introl eq_refl)) as (child & p & ->).
    simpl in Hquiet. simpl.
    destruct (collapsedCallback_cases child p s)
      as [[_ Hr] | (l1 & x & l2 & _ & _ & _ & Hr)];
      unfold effects in *; rewrite Hr in *; simpl in *.
    + specialize (IH s).
      destruct (run Number_ r s) as [s2 t2]. simpl in *.
      apply IH; [assumption | intros; apply Honly; now right].
    + match goal with |- context [run Number_ r ?st] =>
        specialize (IH st); destruct (run Number_ r st) as [s2 t2]
      end.
      simpl in *.
      destruct (totalChildren_ s - 1 =? 0); simpl in *.
      * inversion Hquiet; discriminate.
      * apply IH; [assumption | intros; apply Honly; now right].
Qed.

(** ** C4: two elements and a non-blank text node, end to end *)

(** The filters of the build phase commute with reordering of the nodes. *)
Lemma filter_nodes_Permutation (keep : Node -> bool) (nodes nodes' : list Node) :
  Permutation nodes nodes' ->
  Permutation (filter keep nodes) (filter keep nodes').
Proof.
  intro Hp.
  induction Hp as [| x l l' _ IH | x y l | l l' l'' _ IH1 _ IH2]; simpl.
  - constructor.
  - destruct (keep x); [now constructor | assumption].
  - destruct (keep x), (keep y); try apply Permutation_refl. apply perm_swap.
  - now apply Permutation_trans with (filter keep l').
Qed.

Lemma same_node_refl (a : Node) : same_node a a = true.
Proof. apply Nat.eqb_refl. Qed.

Lemma same_node_sym (a b : Node) : same_node a b = same_node b a.
Proof. apply Nat.eqb_sym. Qed.

(** Two distinct tracked children collapsing in turn, whatever their order
    in the tracked list, when the counter starts at [n]. *)
Lemma two_collapses (Number_ : option string -> num) (s : State)
      (e1 e2 : Node) (p1 p2 : Promise) :
  children_ s = [e1; e2] \/ children_ s = [e2; e1] ->
  same_node e1 e2 = false ->
  totalChildren_ s - 1 <> 0 ->
  let r1 := step Number_ (CbCollapsed e1 p1) s in
  let r2 := step Number_ (CbCollapsed e2 p2) (fst r1) in
  totalChildren_ (fst r1) = totalChildren_ s - 1 /\
  totalChildren_ (fst r2) = totalChildren_ s - 2 /\
  children_ (fst r2) = [] /\
  snd r1 = [] /\
  snd r2 = if totalChildren_ s - 2 =? 0 then [EvAttemptCollapse] else [].
Proof.
  intros Hc Hneq Hn. cbv zeta. unfold step, effects.
  assert (Hneq' : same_node e2 e1 = false) by (now rewrite same_node_sym).
  apply Z.eqb_neq in Hn.
  assert (Hfirst : exists l1 l2,
             collapsedCallback e1 p1 s =
             (set_totalChildren_ (totalChildren_ s - 1) (set_children_ (l1 ++ l2) s),
              [], Return None) /\ l1 ++ l2 = [e2]).
  { destruct Hc as [Hc | Hc].
    - exists [], [e2]. split; [|reflexivity].
      rewrite (collapsedCallback_first e1 p1 s [] [e2] e1 Hc (same_node_refl e1) eq_refl).
      now rewrite Hn.
    - assert (Hl1 : existsb (fun y => same_node y e1) [e2] = false)
        by (simpl; now rewrite Hneq').
      exists [e2], []. split; [|reflexivity].
      rewrite (collapsedCallback_first e1 p1 s [e2] [] e1 Hc (same_node_refl e1) Hl1).
      now rewrite Hn. }
  destruct Hfirst as (l1 & l2 & Hr1 & Hl).
  rewrite Hr1, Hl. cbn [fst snd].
  set (s1 := set_totalChildren_ (totalChildren_ s - 1) (set_children_ [e2] s)).
  rewrite (collapsedCallback_first e2 p2 s1 [] [] e2 eq_refl (same_node_refl e2) eq_refl).
  cbn [fst snd]. subst s1. cbn [totalChildren_ children_ set_totalChildren_ set_children_ app].
  replace (totalChildren_ s - 1 - 1) with (totalChildren_ s - 2) by lia.
  repeat split; reflexivity.
Qed.

(** C4, as the code has it.  A component built with three real child nodes,
    two distinct elements and one non-blank text node in any order, starts
    with the counter at 3; as the two elements collapse in turn the counter
    drops to 2 and then to 1, and no self-collapse is requested. *)
Theorem three_children_end_to_end (Number_ : option string -> num)
        (element : Node) (nodes : list Node) (e1 e2 t : Node)
        (Hnodes : Permutation [e1; e2; t] nodes)
        (He1 : isElement e1 = true) (He2 : isElement e2 = true)
        (Hneq : same_node e1 e2 = false) (Ht : nonblank_text t) :
  three_children_scenario Number_ element nodes e1 e2 = (3, 2, 1, 0%nat).
Proof.
  assert (Hte : isElement t = false).
  { destruct Ht as [Ht _]. unfold isElement, ELEMENT_NODE. now rewrite Ht. }
  assert (Hb1 : nonblank_textb e1 = false).
  { unfold nonblank_textb, isText, TEXT_NODE. unfold isElement, ELEMENT_NODE in He1.
    apply Z.eqb_eq in He1. now rewrite He1. }
  assert (Hb2 : nonblank_textb e2 = false).
  { unfold nonblank_textb, isText, TEXT_NODE. unfold isElement, ELEMENT_NODE in He2.
    apply Z.eqb_eq in He2. now rewrite He2. }
  assert (Hbt : nonblank_textb t = true) by (now apply nonblank_textb_iff).
  pose proof (filter_nodes_Permutation isElement _ _ Hnodes) as Pe.
  pose proof (filter_nodes_Permutation nonblank_textb _ _ Hnodes) as Pt.
  simpl in Pe, Pt. rewrite He1, He2, Hte in Pe. rewrite Hb1, Hb2, Hbt in Pt.
  assert (Hcount : Z.of_nat (List.length (visibileChildren_ nodes)) = 3).
  { rewrite visible_length.
    rewrite <- (Permutation_length Pe), <- (Permutation_length Pt). reflexivity. }
  apply Permutation_length_2_inv in Pe.
  unfold three_children_scenario. rewrite built_result.
  cbv zeta. cbn [fst]. rewrite Hcount.
  match goal with
  | |- context [step Number_ (CbCollapsed e1 Fulfilled) ?st] =>
      destruct (two_collapses Number_ st e1 e2 Fulfilled Fulfilled)
        as (H1 & H2 & _ & T1 & T2)
  end.
  - exact Pe.
  - exact Hneq.
  - cbn [totalChildren_]. lia.
  - cbv zeta in H1, H2, T1, T2. cbn [totalChildren_] in H1, H2, T2.
    rewrite H1, H2, T1, T2. reflexivity.
Qed.

(** ** C10: the unguarded divisions of the scale factor *)

Lemma num_div_zero_r (x : num) (sg : bool) :
  is_finite (num_div x (S754_zero sg)) = false.
Proof. destruct x; reflexivity. Qed.

Lemma num_div_nan_r (x : num) : num_div x S754_nan = S754_nan.
Proof. destruct x; reflexivity. Qed.

Lemma num_div_infinity_r (x : num) (sg : bool) :
  num_div x (S754_infinity sg) = S754_nan \/
  exists sz, num_div x (S754_infinity sg) = S754_zero sz.
Proof. destruct x; simpl; eauto. Qed.

Lemma Math_min_nan_l (y : num) : Math_min S754_nan y = S754_nan.
Proof. reflexivity. Qed.

Lemma Math_min_nan_r (x : num) : Math_min x S754_nan = S754_nan.
Proof. destruct x; reflexivity. Qed.

Lemma Math_min_zero_l (sg : bool) (y : num) :
  is_finite_positive (Math_min (S754_zero sg) y) = false.
Proof. destruct y as [sy | sy | | sy m e], sg; try destruct sy; reflexivity. Qed.

Lemma Math_min_zero_r (x : num) (sg : bool) :
  is_finite_positive (Math_min x (S754_zero sg)) = false.
Proof. destruct x as [sx | sx | | sx m e], sg; try destruct sx; reflexivity. Qed.

Lemma Math_min_not_finite (x y : num) :
  is_finite x = false -> is_finite y = false ->
  is_finite (Math_min x y) = false.
Proof.
  destruct x as [sx | sx | | sx mx ex], y as [sy | sy | | sy my ey];
    simpl; try discriminate; intros _ _;
    try destruct sx; try destruct sy; reflexivity.
Qed.

Lemma finite_positive_is_finite (x : num) :
  is_finite_positive x = true -> is_finite x = true.
Proof. destruct x as [s | s | | s m e]; try discriminate. reflexivity. Qed.

(** C10, as the code has it.  [applyScaleTransform_] divides by the numeric
    values [w] and [h] of the two attributes without any guard and always
    sets the resulting coefficient.  A quotient whose divisor is zero is an
    infinity or NaN; the coefficient is NaN when either attribute value is
    NaN, and an infinity or NaN when both are zero.  The coefficient is a
    finite positive number only if both values are finite and at least one
    of them is not zero. *)
Theorem scale_coefficient_unguarded (Number_ : option string -> num)
        (W H : num) (child : Node) (s : State) :
  let w := Number_ (getAttribute "width" (attributes child)) in
  let h := Number_ (getAttribute "height" (attributes child)) in
  let k := Math_min (num_div W w) (num_div H h) in
  (trace_of (applyScaleTransform_ Number_ W H (Some child) s)
   = [EvConsoleLogViewport W H; EvConsoleLogChild w h; EvSetTransform child k] /\
   outcome_of (applyScaleTransform_ Number_ W H (Some child) s) = Return tt) /\
  (is_zero w = true -> is_finite (num_div W w) = false) /\
  (is_zero h = true -> is_finite (num_div H h) = false) /\
  (is_nan w = true \/ is_nan h = true -> k = S754_nan) /\
  (is_zero w = true -> is_zero h = true -> is_finite k = false) /\
  (is_finite_positive k = true ->
   is_finite w = true /\ is_finite h = true /\
   (finite_nonzero w = true \/ finite_nonzero h = true)).
Proof.
  cbv zeta.
  set (w := Number_ (getAttribute "width" (attributes child))).
  set (h := Number_ (getAttribute "height" (attributes child))).
  split; [split; reflexivity|].
  split; [|split; [|split; [|split]]].
  - destruct w; try discriminate. intros _. apply num_div_zero_r.
  - destruct h; try discriminate. intros _. apply num_div_zero_r.
  - intros [Hn | Hn].
    + destruct w; try discriminate. rewrite num_div_nan_r. apply Math_min_nan_l.
    + destruct h; try discriminate. rewrite num_div_nan_r. apply Math_min_nan_r.
  - destruct w as [sw| | |]; try discriminate.
    destruct h as [sh| | |]; try discriminate. intros _ _.
    apply Math_min_not_finite; apply num_div_zero_r.
  - intro Hk.
    destruct w as [sw | sw | | sw mw ew].
    + destruct h as [sh | sh | | sh mh eh].
      * pose proof (Math_min_not_finite _ _ (num_div_zero_r W sw) (num_div_zero_r H sh)) as Hnf.
        apply finite_positive_is_finite in Hk. congruence.
      * destruct (num_div_infinity_r H sh) as [E | [sz E]]; rewrite E in Hk.
        -- rewrite Math_min_nan_r in Hk. discriminate.
        -- rewrite Math_min_zero_r in Hk. discriminate.
      * rewrite num_div_nan_r, Math_min_nan_r in Hk. discriminate.
      * simpl. auto.
    + destruct (num_div_infinity_r W sw) as [E | [sz E]]; rewrite E in Hk.
      * rewrite Math_min_nan_l in Hk. discriminate.
      * rewrite Math_min_zero_l in Hk. discriminate.
    + rewrite num_div_nan_r, Math_min_nan_l in Hk. discriminate.
    + destruct h as [sh | sh | | sh mh eh].
      * simpl. auto.
      * destruct (num_div_infinity_r H sh) as [E | [sz E]]; rewrite E in Hk.
        -- rewrite Math_min_nan_r in Hk. discriminate.
        -- rewrite Math_min_zero_r in Hk. discriminate.
      * rewrite num_div_nan_r, Math_min_nan_r in Hk. discriminate.
      * simpl. auto.
Qed.

(** ** Concrete runs *)

Local Open Scope string_scope.
Local Open Scope list_scope.

(** A viewport 600 high in a document 3000 high: the accepted band of top
    offsets is 450 to 2430. *)
Example layout_at_half_viewport :
  layoutCallback (num_of_Z 600) (num_of_Z 3000) (num_of_Z 300) constructed
  = (constructed, [EvCollapse],
     Throw (PositionTooEarly (num_of_Z 300) (num_of_Z 450))).
Proof. vm_compute. reflexivity. Qed.

Example layout_at_lower_bound :
  outcome_of (layoutCallback (num_of_Z 600) (num_of_Z 3000) (num_of_Z 450)
                             constructed)
  = Return Fulfilled.
Proof. vm_compute. reflexivity. Qed.

Example layout_at_upper_bound :
  outcome_of (layoutCallback (num_of_Z 600) (num_of_Z 3000) (num_of_Z 2430)
                             constructed)
  = Return Fulfilled.
Proof. vm_compute. reflexivity. Qed.

Example layout_past_upper_bound :
  layoutCallback (num_of_Z 600) (num_of_Z 3000) (num_of_Z 2431) constructed
  = (constructed, [EvCollapse],
     Throw (PositionTooLate (num_of_Z 2431) (num_of_Z 2430))).
Proof. vm_compute. reflexivity. Qed.

Example visible_children_sample :
  map nodeId
      (visibileChildren_
         [text 1 "  "; elem 2 None []; mkNode 3 8 (code_units "note") None [];
          text 4 " a "; text 5 ""; elem 6 (Some FIXED) []])
  = [2; 4; 6]%nat.
Proof. reflexivity. Qed.

Example scaling_enabled_sample :
  scaleContent_
    (fst (built (carpet [("scale-content", "")])
                [text 1 " "; elem 2 (Some FIXED) [("width", "400"); ("height", "300")]]))
  = true.
Proof. reflexivity. Qed.

Example scaling_refused_sample :
  let r := built (carpet [("scale-content", "")])
                 [elem 1 (Some FIXED) []; elem 2 (Some FIXED) []] in
  scaleContent_ (fst r) = false /\ In (EvConsoleWarn "Can't scale") (snd r).
Proof. split; [reflexivity | simpl; auto]. Qed.

(** Once the only tracked child of a scaling component with a text node has
    collapsed, a measurement change finds no first child and raises. *)
Example measure_after_last_child_collapsed :
  let child := elem 2 (Some FIXED) [("width", "400"); ("height", "300")] in
  let s0 := fst (built (carpet [("scale-content", "")]) [text 1 "caption"; child]) in
  let s1 := fst (step Number_uint (CbCollapsed child Fulfilled) s0) in
  totalChildren_ s1 = 1 /\
  outcome_of (onMeasureChanged Number_uint (num_of_Z 320) (num_of_Z 800)
                               (num_of_Z 600) s1)
  = Throw TypeError.
Proof. split; reflexivity. Qed.

(** C3, on a component with a single element child whose collapse request
    the host rejects. *)
Lemma collapsedCallback_tracked_witness :
  let child := elem 1 None [] in
  let s := fst (built (carpet []) [child]) in
  tracked child s /\
  ((exists l1 x l2,
       children_ s = l1 ++ x :: l2 /\ same_node x child = true /\
       (forall y, In y l1 -> same_node y child = false) /\
       state_of (collapsedCallback child Rejected s)
       = set_totalChildren_ (totalChildren_ s - 1) (set_children_ (l1 ++ l2) s)) /\
   totalChildren_ (state_of (collapsedCallback child Rejected s))
   = totalChildren_ s - 1 /\
   (totalChildren_ s - 1 = 0 ->
    trace_of (collapsedCallback child Rejected s) = [EvAttemptCollapse] /\
    outcome_of (collapsedCallback child Rejected s) = Return (Some Fulfilled)) /\
   (totalChildren_ s - 1 <> 0 ->
    trace_of (collapsedCallback child Rejected s) = [] /\
    outcome_of (collapsedCallback child Rejected s) = Return None)).
Proof.
  cbv zeta.
  assert (Ht : tracked (elem 1 None []) (fst (built (carpet []) [elem 1 None []]))).
  { exists (elem 1 None []). split; [left; reflexivity | reflexivity]. }
  split; [exact Ht|].
  exact (collapsedCallback_tracked (elem 1 None []) Rejected
           (fst (built (carpet []) [elem 1 None []])) Ht).
Defined.

(** C4 as stated, on two elements and the text "hi": the counter would have
    to go 3, 1, 0 with one self-collapse request; it goes 3, 2, 1 with none. *)
Lemma three_children_counterexample :
  three_children_scenario Number_uint (carpet [])
    [elem 1 None []; elem 2 None []; text 3 "hi"]
    (elem 1 None []) (elem 2 None [])
  <> (3, 1, 0, 1%nat).
Proof. vm_compute. intro H. discriminate H. Qed.

Lemma three_children_end_to_end_witness :
  let e1 := elem 1 None [] in
  let e2 := elem 2 None [] in
  let t := text 3 "hi" in
  Permutation [e1; e2; t] [e1; t; e2] /\
  isElement e1 = true /\ isElement e2 = true /\
  same_node e1 e2 = false /\ nonblank_text t /\
  three_children_scenario Number_uint (carpet []) [e1; t; e2] e1 e2
  = (3, 2, 1, 0%nat).
Proof.
  cbv zeta.
  assert (Hp : Permutation [elem 1 None []; elem 2 None []; text 3 "hi"]
                           [elem 1 None []; text 3 "hi"; elem 2 None []])
    by (apply perm_skip, perm_swap).
  assert (Ht : nonblank_text (text 3 "hi")).
  { split; [reflexivity|]. exists 104%N. split; [left; reflexivity | reflexivity]. }
  repeat (split; [first [exact Hp | exact Ht | reflexivity]|]).
  exact (three_children_end_to_end Number_uint (carpet []) _ _ _ _
           Hp eq_refl eq_refl eq_refl Ht).
Defined.

(** C7, on a component with two element children and a text node. *)
Lemma collapsedCallback_twice_witness :
  let child := elem 1 None [] in
  let nodes := [child; text 2 "hi"; elem 3 None []] in
  let s := fst (run Number_uint [CbViewport true] (fst (built (carpet []) nodes))) in
  let s1 := state_of (collapsedCallback child Rejected s) in
  distinct_nodes nodes /\
  ~ tracked child s1 /\
  collapsedCallback child Fulfilled s1 = (s1, [], Return None).
Proof.
  cbv zeta.
  assert (Hd : distinct_nodes [elem 1 None []; text 2 "hi"; elem 3 None []]).
  { unfold distinct_nodes. simpl.
    repeat constructor; simpl; intuition discriminate. }
  split; [exact Hd|].
  exact (proj2 collapsedCallback_twice Number_uint (carpet []) _ [CbViewport true]
               (elem 1 None []) Rejected Fulfilled Hd).
Defined.

(** C10 as stated, on a child declared 0 by 300 under a viewport of 800 by
    600: the division by zero gives an infinity, and the coefficient is the
    finite positive 2 although the width is zero. *)
Lemma zero_width_counterexample :
  let child := elem 1 (Some FIXED) [("width", "0"); ("height", "300")] in
  let w := Number_uint (getAttribute "width" (attributes child)) in
  let h := Number_uint (getAttribute "height" (attributes child)) in
  ~ (forall k,
        In (EvSetTransform child k)
           (trace_of (applyScaleTransform_ Number_uint (num_of_Z 800)
                                           (num_of_Z 600) (Some child) constructed)) ->
        is_finite_positive k = true ->
        finite_nonzero w = true /\ finite_nonzero h = true).
Proof.
  cbv zeta. intro Hclaim.
  destruct (Hclaim (num_of_Z 2)) as [Hw _].
  - vm_compute. right. right. left. reflexivity.
  - reflexivity.
  - vm_compute in Hw. discriminate Hw.
Qed.

(** * Further properties of the callbacks *)

Local Close Scope string_scope.

(** ** Explicit results of the remaining callbacks *)

Lemma onMeasureChanged_result (Number_ : option string -> num)
      (width W H : num) (s : State) :
  onMeasureChanged Number_ width W H s =
  (if firstLayoutCompleted_ s then add_builtListener s else s,
   (EvSetContainerWidth width
    :: (if firstLayoutCompleted_ s
        then [EvScheduleLayout (children_ s); EvListenBuilt] else []))
   ++ (if scaleContent_ s then
         match children_ s with
         | [] => []
         | c :: _ =>
             [EvConsoleLogViewport W H;
              EvConsoleLogChild (Number_ (getAttribute "width" (attributes c)))
                                (Number_ (getAttribute "height" (attributes c)));
              EvSetTransform c
                (scale_factor W H
                   (Number_ (getAttribute "width" (attributes c)))
                   (Number_ (getAttribute "height" (attributes c))))]
         end
       else []),
   if scaleContent_ s then
     match children_ s with
     | [] => Throw TypeError
     | _ :: _ => Return tt
     end
   else Return tt).
Proof.
  unfold onMeasureChanged, listenBuilt, bind, emit, get, modify, when.
  simpl.
  destruct (firstLayoutCompleted_ s); simpl;
    destruct (scaleContent_ s); simpl; try reflexivity;
    destruct (children_ s) as [|c r]; reflexivity.
Qed.

Lemma layoutBuiltChild_result (Number_ : option string -> num)
      (target : Node) (owned : bool) (W H : num) (s : State) :
  layoutBuiltChild_ Number_ target owned W H s =
  (s, built_handler_trace Number_ target owned W H s,
   if isElement target then Return tt else Throw DevAssertNotElement).
Proof.
  unfold layoutBuiltChild_, built_handler_trace, userAssert, bind, emit, get, when.
  destruct (isElement target); simpl; [|reflexivity].
  destruct owned; simpl; [|reflexivity].
  destruct (scaleContent_ s); reflexivity.
Qed.

Lemma dispatchBuilt_result (Number_ : option string -> num) (n : nat)
      (target : Node) (owned : bool) (W H : num) (s : State) :
  dispatchBuilt Number_ n target owned W H s =
  (s, List.concat (repeat (built_handler_trace Number_ target owned W H s) n)).
Proof.
  induction n as [|n IH]; simpl; [reflexivity|].
  unfold effects. rewrite layoutBuiltChild_result. simpl.
  rewrite IH. reflexivity.
Qed.

(** A property of states kept by every step, together with a property of
    the events issued from such states, holds along every run. *)
Lemma run_invariant (Number_ : option string -> num)
      (P : State -> Prop) (Q : Event -> Prop) :
  (forall cb s, P s ->
                P (fst (step Number_ cb s)) /\
                Forall Q (snd (step Number_ cb s))) ->
  forall cbs s, P s ->
                P (fst (run Number_ cbs s)) /\ Forall Q (snd (run Number_ cbs s)).
Proof.
  intros Hstep cbs. induction cbs as [|cb r IH]; intros s Hs; simpl.
  - split; [assumption | constructor].
  - destruct (Hstep cb s Hs) as [H1 Ht1].
    destruct (step Number_ cb s) as [s1 t1]. simpl in *.
    destruct (IH s1 H1) as [H2 Ht2].
    destruct (run Number_ r s1) as [s2 t2]. simpl in *.
    split; [assumption | apply Forall_app; split; assumption].
Qed.

(** ** The scalability check *)

Lemma assertScalable_explicit (s : State) :
  assertScalable_ s =
  (s, [],
   match children_ s with
   | [c] =>
       match layout_ c with
       | Some FIXED => Return tt
       | other => Throw (ChildNotFixed other)
       end
   | l => Throw (NotSingleChild (Z.of_nat (List.length l)))
   end).
Proof.
  unfold assertScalable_, bind, get, userAssert. cbv zeta.
  destruct (children_ s) as [|c [|c' r]].
  - reflexivity.
  - simpl. destruct (layout_ c) as [[]|]; reflexivity.
  - replace (Z.of_nat (List.length (c :: c' :: r)) =? 1) with false
      by (symmetry; apply Z.eqb_neq; simpl List.length; lia).
    reflexivity.
Qed.

(** X1.  [assertScalable_] touches no field and calls nothing.  It returns
    normally exactly for a single tracked child of layout [FIXED]; it fails
    with the child-count error, carrying the count, exactly when the count
    is not 1, and with the layout error, carrying the layout found, exactly
    for a single child of another (or no) layout.  The access to the first
    child never fails, the count being checked before it. *)
Theorem assertScalable_outcomes (s : State) :
  state_of (assertScalable_ s) = s /\
  trace_of (assertScalable_ s) = [] /\
  (outcome_of (assertScalable_ s) = Return tt <->
   exists c, children_ s = [c] /\ layout_ c = Some FIXED) /\
  (forall n, outcome_of (assertScalable_ s) = Throw (NotSingleChild n) <->
             n = Z.of_nat (List.length (children_ s)) /\ n <> 1) /\
  (forall l, outcome_of (assertScalable_ s) = Throw (ChildNotFixed l) <->
             exists c, children_ s = [c] /\ layout_ c = l /\ l <> Some FIXED) /\
  outcome_of (assertScalable_ s) <> Throw TypeError /\
  outcome_of (assertScalable_ s) <> Throw DevAssertNotElement.
Proof.
  rewrite assertScalable_explicit. unfold state_of, trace_of, outcome_of.
  cbn [fst snd].
  split; [reflexivity|]. split; [reflexivity|].
  destruct (children_ s) as [|c [|c' r]].
  - split; [|split; [|split; [|split]]]; try discriminate.
    + split; [discriminate | intros (c & Hc & _); discriminate].
    + intro n. simpl. split.
      * intro E. injection E as <-. split; [reflexivity | lia].
      * intros [-> _]. reflexivity.
    + intro l. split; [discriminate | intros (c & Hc & _); discriminate].
  - assert (Hcase : (layout_ c = Some FIXED) \/ (layout_ c <> Some FIXED))
      by (destruct (layout_ c) as [[]|]; auto; right; discriminate).
    destruct Hcase as [Hf | Hnf].
    + rewrite Hf.
      split; [|split; [|split; [|split]]]; try discriminate.
      * split; [intros _; exists c; auto | reflexivity].
      * intro n. split; [discriminate|]. intros [-> Hn]. simpl in Hn. lia.
      * intro l. split; [discriminate|].
        intros (c0 & Hc & Hl & Hne). injection Hc as <-. congruence.
    + assert (Hout : match layout_ c with
                     | Some FIXED => Return tt
                     | other => Throw (ChildNotFixed other)
                     end = (Throw (ChildNotFixed (layout_ c)) : Outcome unit)).
      { destruct (layout_ c) as [[]|]; try reflexivity. congruence. }
      rewrite Hout.
      split; [|split; [|split; [|split]]]; try discriminate.
      * split; [discriminate|].
        intros (c0 & Hc & Hl). injection Hc as <-. congruence.
      * intro n. split; [discriminate|]. intros [-> Hn]. simpl in Hn. lia.
      * intro l. split.
        -- intro E. injection E as <-. exists c. auto.
        -- intros (c0 & Hc & Hl & _). injection Hc as <-. congruence.
  - split; [|split; [|split; [|split]]]; try discriminate.
    + split; [discriminate | intros (c0 & Hc & _); discriminate].
    + intro n. split.
      * intro E. injection E as <-. split; [reflexivity | simpl List.length; lia].
      * intros [-> _]. reflexivity.
    + intro l. split; [discriminate | intros (c0 & Hc & _); discriminate].
Qed.

(** ** The position errors *)

(** X2.  The error [layoutCallback] throws is the one of the first failing
    assertion: the too-early error exactly when the lower bound fails
    (whatever the upper bound says), the too-late error exactly when the
    lower bound holds and the upper one fails; it throws nothing else. *)
Theorem layoutCallback_error_kind (s : State) (H D T : num) :
  (outcome_of (layoutCallback H D T s)
   = Throw (PositionTooEarly T (num_mul H lit_0_75)) <->
   num_le (num_mul H lit_0_75) T = false) /\
  (outcome_of (layoutCallback H D T s)
   = Throw (PositionTooLate T (num_sub D (num_mul H lit_0_95))) <->
   num_le (num_mul H lit_0_75) T = true /\
   num_le T (num_sub D (num_mul H lit_0_95)) = false) /\
  (forall e, outcome_of (layoutCallback H D T s) = Throw e ->
             e = PositionTooEarly T (num_mul H lit_0_75) \/
             e = PositionTooLate T (num_sub D (num_mul H lit_0_95))).
Proof.
  destruct (layoutCallback_cases s H D T)
    as [[Hacc Hr] | [Hacc (e & He & Hkind & Hr)]]; rewrite Hr;
    unfold outcome_of; cbn [snd].
  - unfold position_accepted in Hacc. apply andb_prop in Hacc.
    destruct Hacc as [H1 H2]. rewrite H1, H2.
    split; [|split].
    + split; discriminate.
    + split; [discriminate | intros [_ Hc]; discriminate].
    + intros e He. discriminate.
  - unfold assertPosition_, bind, userAssert, num_ge in He. fold (num_le (num_mul H lit_0_75) T) in He.
    destruct (num_le (num_mul H lit_0_75) T) eqn:E1; simpl in He.
    + destruct (num_le T (num_sub D (num_mul H lit_0_95))) eqn:E2; simpl in He;
        [discriminate|].
      injection He as <-.
      split; [|split].
      * split; discriminate.
      * split; auto.
      * intros e He. injection He as <-. now right.
    + injection He as <-.
      split; [|split].
      * split; auto.
      * split; [discriminate | intros [Hc _]; discriminate].
      * intros e He. injection He as <-. now left.
Qed.






(** ** Measurement changes *)

(** X4.  [onMeasureChanged] always schedules the width of the container
    first.  It raises, with a type error, exactly when scaling is on and no
    tracked child is left; otherwise it returns normally.  After a completed
    first layout it also reschedules the tracked children and registers one
    more listener for the built event, even when it goes on to raise; before
    that it changes no field and requests no layout. *)
Theorem onMeasureChanged_outcome (Number_ : option string -> num)
        (width W H : num) (s : State) :
  (exists rest,
      trace_of (onMeasureChanged Number_ width W H s)
      = EvSetContainerWidth width :: rest) /\
  (outcome_of (onMeasureChanged Number_ width W H s) = Throw TypeError <->
   scaleContent_ s = true /\ children_ s = []) /\
  (outcome_of (onMeasureChanged Number_ width W H s) = Return tt \/
   outcome_of (onMeasureChanged Number_ width W H s) = Throw TypeError) /\
  (firstLayoutCompleted_ s = true ->
   state_of (onMeasureChanged Number_ width W H s) = add_builtListener s /\
   exists rest,
     trace_of (onMeasureChanged Number_ width W H s)
     = EvSetContainerWidth width :: EvScheduleLayout (children_ s)
       :: EvListenBuilt :: rest) /\
  (firstLayoutCompleted_ s = false ->
   state_of (onMeasureChanged Number_ width W H s) = s /\
   forall ev, In ev (trace_of (onMeasureChanged Number_ width W H s)) ->
              is_layoutRequest ev = false).
Proof.
  rewrite onMeasureChanged_result. unfold trace_of, outcome_of, state_of.
  cbn [fst snd].
  split; [eexists; reflexivity|].
  split; [|split; [|split]].
  - destruct (scaleContent_ s); [|split; [discriminate | intros [Hc _]; discriminate]].
    destruct (children_ s); split; auto; try discriminate.
    intros [_ Hc]. discriminate.
  - destruct (scaleContent_ s); [|now left].
    destruct (children_ s); [now right | now left].
  - intros ->. split; [reflexivity|]. eexists. reflexivity.
  - intros ->. split; [reflexivity|]. simpl.
    intros ev [<- | Hin]; [reflexivity|].
    destruct (scaleContent_ s); [|contradiction].
    destruct (children_ s); [contradiction|].
    simpl in Hin. destruct Hin as [<- | [<- | [<- | []]]]; reflexivity.
Qed.

(** ** Tracked children along a run *)

Lemma Subseq_same {A : Type} (l : list A) : Subseq l l.
Proof. induction l; now constructor. Qed.

Lemma Subseq_chain {A : Type} (l1 l2 l3 : list A) :
  Subseq l1 l2 -> Subseq l2 l3 -> Subseq l1 l3.
Proof.
  intros H12 H23. revert l1 H12.
  induction H23 as [| x l2 l3 _ IH | x l2 l3 _ IH]; intros l1 H12.
  - exact H12.
  - inversion H12; subst.
    + apply Subseq_keep. now apply IH.
    + apply Subseq_drop. now apply IH.
  - apply Subseq_drop. now apply IH.
Qed.

Lemma Subseq_without {A : Type} (l1 l2 : list A) (x : A) :
  Subseq (l1 ++ l2) (l1 ++ x :: l2).
Proof.
  induction l1 as [|y r IH]; simpl.
  - apply Subseq_drop, Subseq_same.
  - now apply Subseq_keep.
Qed.

Lemma Subseq_member {A : Type} (l1 l2 : list A) (x : A) :
  Subseq l1 l2 -> In x l1 -> In x l2.
Proof.
  induction 1 as [| y l1 l2 _ IH | y l1 l2 _ IH]; simpl; intros Hin.
  - assumption.
  - destruct Hin as [-> | Hin]; [now left | right; now apply IH].
  - right. now apply IH.
Qed.

Lemma Subseq_of_empty {A : Type} (l : list A) : Subseq l [] -> l = [].
Proof. intro H. now inversion H. Qed.

Lemma step_children_Subseq (Number_ : option string -> num)
      (cb : Callback) (s : State) :
  Subseq (children_ (fst (step Number_ cb s))) (children_ s) /\
  container_ (fst (step Number_ cb s)) = container_ s.
Proof.
  destruct (step_cases Number_ cb s)
    as [[(Hc & _ & _ & Hk) _] | (child & p & l1 & x & l2 & _ & Hc & _ & _ & Hr)].
  - rewrite Hc, Hk. split; [apply Subseq_same | reflexivity].
  - rewrite Hr. simpl. rewrite Hc. split; [apply Subseq_without | reflexivity].
Qed.

Lemma run_children_Subseq (Number_ : option string -> num)
      (cbs : list Callback) (s : State) :
  Subseq (children_ (fst (run Number_ cbs s))) (children_ s) /\
  container_ (fst (run Number_ cbs s)) = container_ s.
Proof.
  revert s. induction cbs as [|cb r IH]; intro s; simpl.
  - split; [apply Subseq_same | reflexivity].
  - destruct (step_children_Subseq Number_ cb s) as [H1 K1].
    destruct (step Number_ cb s) as [s1 t1]. simpl in *.
    destruct (IH s1) as [H2 K2].
    destruct (run Number_ r s1) as [s2 t2]. simpl in *.
    split; [now apply Subseq_chain with (children_ s1) | congruence].
Qed.

(** X5.  In every state reached from build the tracked children are a
    subsequence of the element children found at build (callbacks only ever
    remove), each of them is an element among the real child nodes, they
    stay distinct if the child nodes were, and the container still holds
    all the real child nodes. *)
Theorem tracked_children_only_shrink (Number_ : option string -> num)
        (element : Node) (nodes : list Node) (cbs : list Callback) :
  Subseq (children_ (fst (run Number_ cbs (fst (built element nodes)))))
         (getRealChildren nodes) /\
  (forall c, In c (children_ (fst (run Number_ cbs (fst (built element nodes))))) ->
             In c nodes /\ isElement c = true) /\
  (distinct_nodes nodes ->
   distinct_nodes (children_ (fst (run Number_ cbs (fst (built element nodes)))))) /\
  container_ (fst (run Number_ cbs (fst (built element nodes)))) = Some nodes.
Proof.
  destruct (run_children_Subseq Number_ cbs (fst (built element nodes)))
    as [Hsub Hk].
  assert (Hb : children_ (fst (built element nodes)) = getRealChildren nodes)
    by (rewrite built_result; reflexivity).
  assert (Hkb : container_ (fst (built element nodes)) = Some nodes)
    by (rewrite built_result; reflexivity).
  rewrite Hb in Hsub.
  split; [exact Hsub|]. split; [|split].
  - intros c Hin. apply (Subseq_member _ _ _ Hsub) in Hin.
    unfold getRealChildren in Hin. now apply filter_In in Hin.
  - intro Hd. apply run_distinct. now apply built_distinct.
  - congruence.
Qed.

(** X6.  A component built with scaling enabled tracks one child [c] of
    layout [FIXED].  In every state reached afterwards either [c] is still
    the only tracked child, and a measurement change returns normally and
    scales [c] by [min(W / w, H / h)], or [c] has collapsed, no child is
    tracked, and every measurement change raises a type error. *)
Theorem scaling_component_measure (Number_ : option string -> num)
        (element : Node) (nodes : list Node)
        (Hscale : scaleContent_ (fst (built element nodes)) = true) :
  exists c,
    getRealChildren nodes = [c] /\ layout_ c = Some FIXED /\
    forall cbs width W H,
      let s := fst (run Number_ cbs (fst (built element nodes))) in
      (children_ s = [c] /\
       outcome_of (onMeasureChanged Number_ width W H s) = Return tt /\
       In (EvSetTransform c
             (scale_factor W H
                (Number_ (getAttribute "width" (attributes c)))
                (Number_ (getAttribute "height" (attributes c)))))
          (trace_of (onMeasureChanged Number_ width W H s))) \/
      (children_ s = [] /\
       outcome_of (onMeasureChanged Number_ width W H s) = Throw TypeError).
Proof.
  assert (Hsc : scaleContent_ (fst (built element nodes))
                = hasAttribute "scale-content" (attributes element)
                  && single_fixed_child (getRealChildren nodes))
    by (rewrite built_result; reflexivity).
  rewrite Hscale in Hsc. symmetry in Hsc. apply andb_prop in Hsc.
  destruct Hsc as [_ Hsingle]. apply single_fixed_child_iff in Hsingle.
  destruct Hsingle as (c & Hc & Hl).
  exists c. split; [exact Hc|]. split; [exact Hl|].
  intros cbs width W H. cbv zeta.
  destruct (run_children_Subseq Number_ cbs (fst (built element nodes)))
    as [Hsub _].
  destruct (run_transforms Number_ cbs (fst (built element nodes))) as [Hflag _].
  rewrite Hscale in Hflag.
  assert (Hbc : children_ (fst (built element nodes)) = [c])
    by (rewrite built_result; exact Hc).
  rewrite Hbc in Hsub.
  set (s := fst (run Number_ cbs (fst (built element nodes)))) in *.
  rewrite onMeasureChanged_result. unfold outcome_of, trace_of. cbn [fst snd].
  rewrite Hflag.
  inversion Hsub as [| x l1 l2 Hrest | x l1 l2 Hrest]; subst.
  - apply Subseq_of_empty in Hrest. subst l1. left.
    split; [reflexivity|]. split; [reflexivity|].
    apply in_or_app. right. simpl. auto.
  - apply Subseq_of_empty in Hrest. right.
    rewrite Hrest. split; reflexivity.
Qed.

(** ** First layout and the listeners of the built event *)

Lemma step_lifecycle (Number_ : option string -> num) (cb : Callback) (s : State) :
  (firstLayoutCompleted_ s = true ->
   firstLayoutCompleted_ (fst (step Number_ cb s)) = true) /\
  (builtListeners s <= builtListeners (fst (step Number_ cb s)))%nat /\
  ((firstLayoutCompleted_ s = false <-> builtListeners s = 0%nat) ->
   (firstLayoutCompleted_ (fst (step Number_ cb s)) = false <->
    builtListeners (fst (step Number_ cb s)) = 0%nat)) /\
  (builtListeners s = 0%nat ->
   firstLayoutCompleted_ (fst (step Number_ cb s)) = false ->
   Forall (fun ev => is_layoutRequest ev = false) (snd (step Number_ cb s))).
Proof.
  destruct cb as [l | width W H | inV | H D T | target owned W H | child p | ];
    simpl; unfold effects.
  - split; [auto|]. split; [lia|]. split; [auto|]. intros _ _. constructor.
  - rewrite onMeasureChanged_result. cbn [fst snd].
    destruct (firstLayoutCompleted_ s) eqn:Ef; simpl; rewrite ?Ef.
    + split; [auto|]. split; [lia|]. split.
      * intros _. split; [discriminate | intro Hc; discriminate].
      * intros _ Hc. discriminate.
    + split; [discriminate|]. split; [lia|]. split.
      * auto.
      * intros _ _. constructor; [reflexivity|].
        destruct (scaleContent_ s); [|constructor].
        destruct (children_ s); repeat constructor.
  - simpl. split; [auto|]. split; [lia|]. split; [auto|].
    intros _ _. repeat constructor.
  - destruct (layoutCallback_cases s H D T)
      as [[_ Hr] | [_ (e & _ & _ & Hr)]]; rewrite Hr; cbn [fst snd]; simpl.
    + split; [auto|]. split; [lia|]. split.
      * intros _. split; [discriminate | intro Hc; discriminate].
      * intros _ Hc. discriminate.
    + split; [auto|]. split; [lia|]. split; [auto|].
      intros _ _. repeat constructor.
  - rewrite dispatchBuilt_result. cbn [fst snd].
    split; [auto|]. split; [lia|]. split; [auto|].
    intros -> _. constructor.
  - destruct (collapsedCallback_cases child p s)
      as [[_ Hr] | (l1 & x & l2 & _ & _ & _ & Hr)]; rewrite Hr; cbn [fst snd]; simpl.
    + split; [auto|]. split; [lia|]. split; [auto|]. intros _ _. constructor.
    + split; [auto|]. split; [lia|]. split; [auto|]. intros _ _.
      destruct (totalChildren_ s - 1 =? 0)%Z; repeat constructor.
  - simpl. split; [auto|]. split; [lia|]. split; [auto|].
    intros _ _. constructor.
Qed.

Lemma run_first_layout_kept (Number_ : option string -> num)
      (cbs : list Callback) (s : State) :
  (firstLayoutCompleted_ s = true ->
   firstLayoutCompleted_ (fst (run Number_ cbs s)) = true) /\
  (builtListeners s <= builtListeners (fst (run Number_ cbs s)))%nat.
Proof.
  revert s. induction cbs as [|cb r IH]; intro s; simpl; [split; auto|].
  destruct (step_lifecycle Number_ cb s) as (H1 & H2 & _ & _).
  destruct (step Number_ cb s) as [s1 t1]. simpl in *.
  destruct (IH s1) as [H3 H4].
  destruct (run Number_ r s1) as [s2 t2]. simpl in *.
  split; [auto | lia].
Qed.

Lemma run_before_first_layout (Number_ : option string -> num)
      (cbs : list Callback) (s : State) :
  (firstLayoutCompleted_ s = false <-> builtListeners s = 0%nat) ->
  (firstLayoutCompleted_ (fst (run Number_ cbs s)) = false <->
   builtListeners (fst (run Number_ cbs s)) = 0%nat) /\
  (firstLayoutCompleted_ (fst (run Number_ cbs s)) = false ->
   Forall (fun ev => is_layoutRequest ev = false) (snd (run Number_ cbs s))).
Proof.
  revert s. induction cbs as [|cb r IH]; intros s Hinv; simpl.
  - split; [exact Hinv | intros; constructor].
  - destruct (step_lifecycle Number_ cb s) as (_ & Hle & H3 & H4).
    specialize (H3 Hinv).
    pose proof (run_first_layout_kept Number_ r (fst (step Number_ cb s)))
      as [Hkeep Hle2].
    destruct (step Number_ cb s) as [s1 t1]. simpl in *.
    destruct (IH s1 H3) as [H5 H6].
    destruct (run Number_ r s1) as [s2 t2]. simpl in *.
    split; [exact H5|].
    intro Hfinal.
    assert (Hs1 : firstLayoutCompleted_ s1 = false).
    { destruct (firstLayoutCompleted_ s1); [|reflexivity].
      rewrite (Hkeep eq_refl) in Hfinal. discriminate. }
    assert (Hs : builtListeners s = 0%nat).
    { apply H3 in Hs1. lia. }
    apply Forall_app. split; [apply H4 | apply H6]; assumption.
Qed.

(** X7.  In every state reached from build, listeners for the built event
    are registered exactly if a first layout has completed; the completion
    flag, once set, stays set and the number of listeners never decreases.
    As long as no layout has completed, the run has scheduled no layout at
    all and subscribed to nothing. *)
Theorem layout_requests_follow_first_layout (Number_ : option string -> num)
        (element : Node) (nodes : list Node) (cbs : list Callback) :
  (firstLayoutCompleted_ (fst (run Number_ cbs (fst (built element nodes)))) = false
   <-> builtListeners (fst (run Number_ cbs (fst (built element nodes)))) = 0%nat) /\
  (firstLayoutCompleted_ (fst (run Number_ cbs (fst (built element nodes)))) = false ->
   forall ev, In ev (snd (built element nodes)
                     ++ snd (run Number_ cbs (fst (built element nodes)))) ->
              is_layoutRequest ev = false) /\
  (forall more,
      (firstLayoutCompleted_ (fst (run Number_ cbs (fst (built element nodes)))) = true ->
       firstLayoutCompleted_
         (fst (run Number_ (cbs ++ more) (fst (built element nodes)))) = true) /\
      (builtListeners (fst (run Number_ cbs (fst (built element nodes))))
       <= builtListeners
            (fst (run Number_ (cbs ++ more) (fst (built element nodes)))))%nat).
Proof.
  assert (Hinit : firstLayoutCompleted_ (fst (built element nodes)) = false <->
                  builtListeners (fst (built element nodes)) = 0%nat)
    by (rewrite built_result; simpl; tauto).
  destruct (run_before_first_layout Number_ cbs _ Hinit) as [H1 H2].
  split; [exact H1|]. split.
  - intros Hf ev Hin. apply in_app_or in Hin. destruct Hin as [Hin | Hin].
    + rewrite built_result in Hin. simpl in Hin.
      apply in_app_or in Hin. destruct Hin as [Hin | Hin].
      * apply in_map_iff in Hin. destruct Hin as (y & <- & _). reflexivity.
      * apply in_app_or in Hin. destruct Hin as [Hin | Hin].
        -- destruct (hasAttribute "scale-content" (attributes element)
                     && negb (single_fixed_child (getRealChildren nodes)));
             simpl in Hin; [destruct Hin as [<- | []]; reflexivity | contradiction].
        -- simpl in Hin. destruct Hin as [<- | [<- | [<- | []]]]; reflexivity.
    + specialize (H2 Hf). rewrite Forall_forall in H2. now apply H2.
  - intro more. rewrite run_app. cbn [fst].
    apply run_first_layout_kept.
Qed.

(** X8.  The dispatch of a built event changes no field and repeats the
    work of one listener once per registered listener.  It does nothing at
    all when no listener is registered, when the target is not an element or
    when the component does not own it; for an owned element it schedules
    the layout of the target as many times as listeners are registered. *)
Theorem built_event_dispatch (Number_ : option string -> num)
        (target : Node) (owned : bool) (W H : num) (s : State) :
  step Number_ (CbBuiltEvent target owned W H) s
  = (s, List.concat (repeat (built_handler_trace Number_ target owned W H s)
                            (builtListeners s))) /\
  (builtListeners s = 0%nat \/ isElement target = false \/ owned = false ->
   snd (step Number_ (CbBuiltEvent target owned W H) s) = []) /\
  (isElement target = true -> owned = true ->
   List.length (filter is_layoutRequest
                       (snd (step Number_ (CbBuiltEvent target owned W H) s)))
   = builtListeners s /\
   forall ev, In ev (snd (step Number_ (CbBuiltEvent target owned W H) s)) ->
              is_layoutRequest ev = true -> ev = EvScheduleLayout [target]).
Proof.
  simpl step. rewrite dispatchBuilt_result. cbn [fst snd].
  split; [reflexivity|]. split.
  - intros [-> | [Ht | ->]]; [reflexivity | |].
    + unfold built_handler_trace. rewrite Ht. simpl.
      induction (builtListeners s); simpl; auto.
    + unfold built_handler_trace. rewrite andb_false_r.
      induction (builtListeners s); simpl; auto.
  - intros Ht ->. unfold built_handler_trace. rewrite Ht. simpl.
    induction (builtListeners s) as [|n [IH1 IH2]]; simpl.
    + split; [reflexivity | intros ev []].
    + split.
      * f_equal. rewrite filter_app, length_app, IH1.
        destruct (scaleContent_ s); reflexivity.
      * intros ev [<- | Hin] Hreq; [reflexivity|].
        apply in_app_or in Hin. destruct Hin as [Hin | Hin]; [|now apply IH2].
        destruct (scaleContent_ s); [|contradiction].
        simpl in Hin. destruct Hin as [<- | [<- | [<- | []]]]; discriminate.
Qed.

(** ** The host calls a step can make *)

Lemma Forall_concat_repeat {A : Type} (Q : A -> Prop) (l : list A) (n : nat) :
  Forall Q l -> Forall Q (List.concat (repeat l n)).
Proof.
  intro Hl. induction n as [|n IH]; simpl; [constructor|].
  apply Forall_app. split; assumption.
Qed.

(** Every host call of a step is of one of the kinds below, layout being
    scheduled for the tracked children or for the target of a built event,
    and the viewport state forwarded to the tracked children. *)
Lemma step_trace_kinds (Number_ : option string -> num) (Q : Event -> Prop)
      (cb : Callback) (s : State) :
  (forall w, Q (EvSetContainerWidth w)) ->
  Q (EvScheduleLayout (children_ s)) ->
  (forall target, Q (EvScheduleLayout [target])) ->
  Q EvListenBuilt ->
  (forall a b, Q (EvConsoleLogViewport a b)) ->
  (forall a b, Q (EvConsoleLogChild a b)) ->
  (forall c k, Q (EvSetTransform c k)) ->
  (forall b, Q (EvUpdateInViewport (children_ s) b)) ->
  Q EvCollapse ->
  Q EvAttemptCollapse ->
  Forall Q (snd (step Number_ cb s)).
Proof.
  intros Hw Hsch Hsch1 Hli Hlv Hlc Htr Hvp Hco Hat.
  destruct cb as [l | width W H | inV | H D T | target owned W H | child p | ];
    simpl; unfold effects.
  - constructor.
  - rewrite onMeasureChanged_result. cbn [fst snd].
    apply Forall_app. split.
    + constructor; [apply Hw|].
      destruct (firstLayoutCompleted_ s); repeat constructor; auto.
    + destruct (scaleContent_ s); [|constructor].
      destruct (children_ s); repeat constructor; auto.
  - simpl. repeat constructor. apply Hvp.
  - destruct (layoutCallback_cases s H D T)
      as [[_ Hr] | [_ (e & _ & _ & Hr)]]; rewrite Hr; cbn [fst snd];
      repeat constructor; auto.
  - rewrite dispatchBuilt_result. cbn [fst snd].
    apply Forall_concat_repeat. unfold built_handler_trace.
    destruct (isElement target && owned); [|constructor].
    constructor; [apply Hsch1|].
    destruct (scaleContent_ s); repeat constructor; auto.
  - destruct (collapsedCallback_cases child p s)
      as [[_ Hr] | (l1 & x & l2 & _ & _ & _ & Hr)]; rewrite Hr; cbn [fst snd].
    + constructor.
    + destruct (totalChildren_ s - 1 =? 0)%Z; repeat constructor; auto.
  - simpl. constructor.
Qed.

(** X9.  The host calls of the build phase are made at build only: build
    makes no other call, and no callback after build sets an owner, logs the
    scaling warning, moves nodes into the container or registers with the
    fixed layer. *)
Theorem build_effects_at_build_only :
  (forall element nodes ev,
      In ev (snd (built element nodes)) -> is_buildEffect ev = true) /\
  (forall Number_ cbs s ev,
      In ev (snd (run Number_ cbs s)) -> is_buildEffect ev = false).
Proof.
  split.
  - intros element nodes ev Hin. rewrite built_result in Hin. simpl in Hin.
    apply in_app_or in Hin. destruct Hin as [Hin | Hin].
    + apply in_map_iff in Hin. destruct Hin as (y & <- & _). reflexivity.
    + apply in_app_or in Hin. destruct Hin as [Hin | Hin].
      * destruct (hasAttribute "scale-content" (attributes element)
                  && negb (single_fixed_child (getRealChildren nodes)));
          simpl in Hin; [destruct Hin as [<- | []]; reflexivity | contradiction].
      * simpl in Hin. destruct Hin as [<- | [<- | [<- | []]]]; reflexivity.
  - intros Number_ cbs s ev Hin.
    destruct (run_invariant Number_ (fun _ => True)
                (fun ev => is_buildEffect ev = false)) with (cbs := cbs) (s := s)
      as [_ Hall]; [|exact I|].
    + intros cb s0 _. split; [exact I|].
      apply step_trace_kinds; intros; reflexivity.
    + rewrite Forall_forall in Hall. now apply Hall.
Qed.

(** X10.  Build makes the component the owner of exactly the tracked
    children, in their order, and moves every real child node, whatever its
    kind, into the container, once and in document order. *)
Theorem build_owns_tracked_children (element : Node) (nodes : list Node) :
  owned_nodes (snd (built element nodes)) = children_ (fst (built element nodes)) /\
  reparented_nodes (snd (built element nodes)) = nodes /\
  (forall n, In n (owned_nodes (snd (built element nodes))) <->
             In n nodes /\ nodeType n = 1%Z).
Proof.
  assert (Hown : owned_nodes (snd (built element nodes)) = getRealChildren nodes).
  { rewrite built_result. cbn [fst snd]. unfold owned_nodes.
    rewrite !flat_map_app.
    assert (Hmap : forall l, flat_map (fun ev => match ev with
                                                 | EvSetAsOwner c => [c]
                                                 | _ => []
                                                 end) (map EvSetAsOwner l) = l).
    { induction l as [|x r IH]; simpl; [reflexivity | now rewrite IH]. }
    rewrite Hmap.
    destruct (hasAttribute "scale-content" (attributes element)
              && negb (single_fixed_child (getRealChildren nodes)));
      simpl; now rewrite app_nil_r. }
  split; [|split].
  - rewrite Hown, built_result. reflexivity.
  - rewrite built_result. cbn [fst snd]. unfold reparented_nodes.
    rewrite !flat_map_app.
    assert (Hmap : forall l, flat_map (fun ev => match ev with
                                                 | EvReparent ns => ns
                                                 | _ => []
                                                 end) (map EvSetAsOwner l) = []).
    { induction l as [|x r IH]; simpl; [reflexivity | exact IH]. }
    rewrite Hmap.
    destruct (hasAttribute "scale-content" (attributes element)
              && negb (single_fixed_child (getRealChildren nodes)));
      simpl; now rewrite app_nil_r.
  - intro n. rewrite Hown. unfold getRealChildren, isElement, ELEMENT_NODE.
    rewrite filter_In, Z.eqb_eq. reflexivity.
Qed.

(** ** Requests to collapse the component *)

Lemma quiet_no_attempt (Number_ : option string -> num) (b : bool)
      (t : list Event) :
  quiet Number_ b t -> filter is_attemptCollapse t = [].
Proof.
  intros [_ Hq]. induction t as [|ev r IH]; simpl; [reflexivity|].
  inversion Hq as [|? ? Hev Hr]; subst. rewrite Hev. now apply IH.
Qed.

Lemma attempts_of_run (Number_ : option string -> num) (k : Z)
      (cbs : list Callback) (s : State) :
  0 <= k -> counter_inv k s ->
  (k = 0 /\ children_ s <> [] /\ children_ (fst (run Number_ cbs s)) = [] /\
   List.length (filter is_attemptCollapse (snd (run Number_ cbs s))) = 1%nat) \/
  (~ (k = 0 /\ children_ s <> [] /\ children_ (fst (run Number_ cbs s)) = []) /\
   List.length (filter is_attemptCollapse (snd (run Number_ cbs s))) = 0%nat).
Proof.
  intro Hk. revert s. induction cbs as [|cb r IH]; intros s Hinv.
  - right. simpl. split; [|reflexivity]. intros (_ & Hne & He). contradiction.
  - pose proof (step_counter_inv Number_ k cb s Hinv) as Hinv1.
    pose proof (run_children_Subseq Number_ r (fst (step Number_ cb s)))
      as [Hsub _].
    simpl.
    destruct (step_cases Number_ cb s)
      as [[(Hc & _) Hq] | (child & p & l1 & x & l2 & _ & Hc & _ & _ & Hr)].
    + apply quiet_no_attempt in Hq.
      destruct (step Number_ cb s) as [s1 t1]. cbn [fst snd] in *.
      specialize (IH s1 Hinv1).
      destruct (run Number_ r s1) as [s2 t2]. cbn [fst snd] in *.
      rewrite filter_app, Hq. cbn [app]. rewrite <- Hc. exact IH.
    + rewrite Hr in Hinv1, Hsub. rewrite Hr. cbn [fst snd] in *.
      unfold counter_inv in Hinv. rewrite Hc, length_app in Hinv.
      cbn [List.length] in Hinv.
      match goal with |- context [run Number_ r ?st] =>
        specialize (IH st Hinv1); set (s1 := st) in *
      end.
      assert (Hs1 : children_ s1 = l1 ++ l2) by reflexivity.
      destruct (run Number_ r s1) as [s2 t2]. cbn [fst snd] in *.
      rewrite filter_app, length_app.
      assert (Hne : children_ s <> [])
        by (rewrite Hc; intro E; destruct l1; discriminate).
      destruct (totalChildren_ s - 1 =? 0) eqn:Ez.
      * apply Z.eqb_eq in Ez.
        assert (Hl : l1 ++ l2 = []).
        { destruct (l1 ++ l2) eqn:El; [reflexivity|].
          apply (f_equal (@List.length Node)) in El.
          rewrite length_app in El. simpl in El. lia. }
        assert (Hk0 : k = 0)
          by (apply (f_equal (@List.length Node)) in Hl;
              rewrite length_app in Hl; simpl in Hl; lia).
        rewrite Hs1, Hl in Hsub. apply Subseq_of_empty in Hsub.
        left. repeat split; auto.
        destruct IH as [(_ & Hc1 & _) | [_ ->]]; [|reflexivity].
        rewrite Hs1, Hl in Hc1. contradiction.
      * apply Z.eqb_neq in Ez. cbn [filter List.length Nat.add].
        destruct IH as [(Hk0 & _ & He & Hn) | [Hnot Hn]].
        -- left. repeat split; auto.
        -- right. split; [|exact Hn].
           intros (Hk0 & _ & He). apply Hnot. repeat split; auto.
           rewrite Hs1. intro El.
           apply (f_equal (@List.length Node)) in El.
           rewrite length_app in El. simpl in El. lia.
Qed.

(** X11.  Over any run from build the component requests its own collapse
    through [attemptCollapse] at most once, and exactly once precisely when
    no non-blank text node was counted at build, there was an element child,
    and every tracked child has collapsed. *)
Theorem self_collapse_requested_once (Number_ : option string -> num)
        (element : Node) (nodes : list Node) (cbs : list Callback) :
  (List.length (filter is_attemptCollapse
                       (snd (run Number_ cbs (fst (built element nodes)))))
   <= 1)%nat /\
  (List.length (filter is_attemptCollapse
                       (snd (run Number_ cbs (fst (built element nodes)))))
   = 1%nat <->
   filter nonblank_textb nodes = [] /\ getRealChildren nodes <> [] /\
   children_ (fst (run Number_ cbs (fst (built element nodes)))) = []).
Proof.
  assert (Hb : children_ (fst (built element nodes)) = getRealChildren nodes)
    by (rewrite built_result; reflexivity).
  assert (Hk : 0 <= Z.of_nat (List.length (filter nonblank_textb nodes))) by lia.
  assert (Hz : Z.of_nat (List.length (filter nonblank_textb nodes)) = 0 <->
               filter nonblank_textb nodes = []).
  { destruct (filter nonblank_textb nodes); simpl; split; auto; try lia.
    discriminate. }
  destruct (attempts_of_run Number_ _ cbs _ Hk (built_counter_inv element nodes))
    as [(H0 & Hne & He & Hn) | [Hnot Hn]]; rewrite Hn, Hb in *.
  - split; [lia|]. split; [|reflexivity].
    intros _. repeat split; auto. now apply Hz.
  - split; [lia|]. split; [discriminate|].
    intros (Ht & Hne & He). exfalso. apply Hnot. repeat split; auto.
    now apply Hz.
Qed.

(** X12.  A component built without element children tracks nothing, ever:
    every [collapsedCallback] is then without effect and no run requests the
    collapse of the component, not even when the counter is zero from the
    start. *)
Theorem childless_component_inert (Number_ : option string -> num)
        (element : Node) (nodes : list Node) (cbs : list Callback)
        (Hnone : getRealChildren nodes = []) :
  children_ (fst (run Number_ cbs (fst (built element nodes)))) = [] /\
  totalChildren_ (fst (run Number_ cbs (fst (built element nodes))))
  = Z.of_nat (List.length (filter nonblank_textb nodes)) /\
  (forall child p,
      collapsedCallback child p (fst (run Number_ cbs (fst (built element nodes))))
      = (fst (run Number_ cbs (fst (built element nodes))), [], Return None)) /\
  (forall ev, In ev (snd (run Number_ cbs (fst (built element nodes)))) ->
              is_attemptCollapse ev = false).
Proof.
  assert (Hb : children_ (fst (built element nodes)) = getRealChildren nodes)
    by (rewrite built_result; reflexivity).
  destruct (run_children_Subseq Number_ cbs (fst (built element nodes)))
    as [Hsub _].
  rewrite Hb, Hnone in Hsub. apply Subseq_of_empty in Hsub.
  pose proof (run_counter_inv Number_ _ cbs _ (built_counter_inv element nodes))
    as Hinv.
  unfold counter_inv in Hinv. rewrite Hsub in Hinv. simpl in Hinv.
  split; [exact Hsub|]. split; [lia|]. split.
  - intros child p. apply collapsedCallback_untracked. now rewrite Hsub.
  - intros ev Hin.
    assert (Hk : 0 <= Z.of_nat (List.length (filter nonblank_textb nodes))) by lia.
    destruct (attempts_of_run Number_ _ cbs _ Hk (built_counter_inv element nodes))
      as [(_ & Hne & _) | [_ Hn]].
    + rewrite Hb in Hne. contradiction.
    + destruct (is_attemptCollapse ev) eqn:E; [|reflexivity].
      assert (Hf : In ev (filter is_attemptCollapse
                            (snd (run Number_ cbs (fst (built element nodes))))))
        by (apply filter_In; auto).
      destruct (filter is_attemptCollapse
                  (snd (run Number_ cbs (fst (built element nodes)))));
        [contradiction | discriminate].
Qed.

(** X13.  The forced collapse is issued once for every layout callback whose
    position check fails, and by nothing else: in any run, from any state,
    the number of forced collapses is the number of rejected layouts. *)
Theorem forced_collapse_per_rejected_layout (Number_ : option string -> num)
        (cbs : list Callback) (s : State) :
  List.length (filter is_forcedCollapse (snd (run Number_ cbs s)))
  = List.length (filter rejected_layout cbs).
Proof.
  revert s. induction cbs as [|cb r IH]; intro s; simpl; [reflexivity|].
  assert (Hstep : List.length (filter is_forcedCollapse (snd (step Number_ cb s)))
                  = if rejected_layout cb then 1%nat else 0%nat).
  { destruct cb as [l | width W H | inV | H D T | target owned W H | child p | ].
    - reflexivity.
    - assert (Hall : Forall (fun ev => is_forcedCollapse ev = false)
                            (snd (step Number_ (CbMeasureChanged width W H) s))).
      { simpl. unfold effects. rewrite onMeasureChanged_result. cbn [fst snd].
        apply Forall_app. split.
        - constructor; [reflexivity|].
          destruct (firstLayoutCompleted_ s); repeat constructor.
        - destruct (scaleContent_ s); [|constructor].
          destruct (children_ s); repeat constructor. }
      simpl rejected_layout.
      induction Hall as [|ev t Hev _ IHt]; simpl; [reflexivity|].
      now rewrite Hev.
    - reflexivity.
    - simpl. unfold effects.
      destruct (layoutCallback_cases s H D T)
        as [[Hacc Hr] | [Hacc (e & _ & _ & Hr)]]; rewrite Hr, Hacc; reflexivity.
    - simpl. rewrite dispatchBuilt_result. cbn [fst snd].
      induction (builtListeners s) as [|n IHn]; simpl; [reflexivity|].
      rewrite filter_app, length_app, IHn.
      unfold built_handler_trace.
      destruct (isElement target && owned); [|reflexivity].
      destruct (scaleContent_ s); reflexivity.
    - simpl. unfold effects.
      destruct (collapsedCallback_cases child p s)
        as [[_ Hr] | (l1 & x & l2 & _ & _ & _ & Hr)]; rewrite Hr; cbn [fst snd].
      + reflexivity.
      + destruct (totalChildren_ s - 1 =? 0); reflexivity.
    - reflexivity. }
  destruct (step Number_ cb s) as [s1 t1]. cbn [fst snd] in *.
  specialize (IH s1). destruct (run Number_ r s1) as [s2 t2]. cbn [fst snd] in *.
  rewrite filter_app, length_app, Hstep, IH.
  destruct (rejected_layout cb); reflexivity.
Qed.

(** ** Collapsed children and the viewport *)


(** ** The scale factor as a minimum *)

Lemma SFcompare_same (x : num) : is_nan x = false -> SFcompare x x = Some Eq.
Proof.
  destruct x as [s | s | | s m e]; simpl; intro Hn; try discriminate.
  - reflexivity.
  - destruct s; reflexivity.
  - rewrite Z.compare_refl, Pos.compare_cont_refl. destruct s; reflexivity.
Qed.

Lemma SFcompare_flip (x y : num) :
  SFcompare y x = option_map CompOpp (SFcompare x y).
Proof.
  destruct x as [sx | sx | | sx mx ex], y as [sy | sy | | sy my ey]; simpl;
    try reflexivity;
    try (destruct sx; reflexivity);
    try (destruct sy; reflexivity);
    try (destruct sx, sy; reflexivity).
  destruct sx, sy; simpl; try reflexivity.
  - pose proof (Pos.compare_cont_antisym mx my Eq) as Ha. simpl in Ha.
    rewrite (Z.compare_antisym ex ey).
    destruct (ex ?= ey); simpl; try reflexivity.
    now rewrite Ha.
  - pose proof (Pos.compare_cont_antisym mx my Eq) as Ha. simpl in Ha.
    rewrite (Z.compare_antisym ex ey).
    destruct (ex ?= ey); simpl; try reflexivity.
    now rewrite Ha.
Qed.

Lemma Math_min_lower (x y : num) :
  is_nan x = false -> is_nan y = false ->
  (Math_min x y = x \/ Math_min x y = y) /\
  num_le (Math_min x y) x = true /\ num_le (Math_min x y) y = true.
Proof.
  intros Hx Hy. unfold Math_min, num_le, SFleb. rewrite Hx, Hy. simpl.
  pose proof (SFcompare_flip x y) as Hflip.
  pose proof (SFcompare_same x Hx) as Hxx.
  pose proof (SFcompare_same y Hy) as Hyy.
  destruct (SFcompare x y) as [[| |]|] eqn:E; simpl in Hflip.
  - destruct (is_neg_zero x).
    + split; [now left|]. now rewrite Hxx, E.
    + split; [now right|]. now rewrite Hflip, Hyy.
  - split; [now left|]. now rewrite Hxx, E.
  - split; [now right|]. now rewrite Hflip, Hyy.
  - destruct x, y; simpl in *; discriminate.
Qed.

(** X15.  The scale coefficient is NaN exactly when one of the two quotients
    is; otherwise it is one of the two quotients and is below or equal to
    both, so the scaled child exceeds the viewport in neither dimension. *)
Theorem scale_factor_bounded (W H w h : num) :
  (is_nan (scale_factor W H w h) = true <->
   is_nan (num_div W w) = true \/ is_nan (num_div H h) = true) /\
  (is_nan (scale_factor W H w h) = false ->
   (scale_factor W H w h = num_div W w \/ scale_factor W H w h = num_div H h) /\
   num_leq (scale_factor W H w h) (num_div W w) /\
   num_leq (scale_factor W H w h) (num_div H h)).
Proof.
  unfold scale_factor, num_leq.
  set (x := num_div W w). set (y := num_div H h).
  destruct (is_nan x) eqn:Hx.
  - assert (Hm : Math_min x y = S754_nan) by (unfold Math_min; now rewrite Hx).
    rewrite Hm. simpl. split; [split; auto | discriminate].
  - destruct (is_nan y) eqn:Hy.
    + assert (Hm : Math_min x y = S754_nan)
        by (unfold Math_min; rewrite Hx, Hy; reflexivity).
      rewrite Hm. simpl. split; [split; auto | discriminate].
    + destruct (Math_min_lower x y Hx Hy) as (Hsel & Hlx & Hly).
      assert (Hn : is_nan (Math_min x y) = false)
        by (destruct Hsel as [-> | ->]; assumption).
      rewrite Hn. split.
      * split; [discriminate | intros [Hc | Hc]; discriminate].
      * intros _. auto.
Qed.

(** ** The filters of the build phase *)

(** X16.  Filtering the visible nodes again changes nothing; the element
    children all pass the filter, in their order, so every tracked child is
    counted; and the filter returns the empty list exactly when the list
    holds no element and no non-blank text, as for a component holding only
    white space and comments. *)
Theorem visible_children_stable (nodes : list Node) :
  visibileChildren_ (visibileChildren_ nodes) = visibileChildren_ nodes /\
  getRealChildren (visibileChildren_ nodes) = getRealChildren nodes /\
  Subseq (getRealChildren nodes) (visibileChildren_ nodes) /\
  (visibileChildren_ nodes = [] <-> forall n, In n nodes -> ~ retained n).
Proof.
  assert (Hidem : visibileChildren_ (visibileChildren_ nodes)
                  = visibileChildren_ nodes).
  { unfold visibileChildren_. induction nodes as [|x r IH]; simpl; [reflexivity|].
    destruct (if nodeType x =? 1 then true
              else if nodeType x =? 3 then test_nonspace (textContent x)
                   else false) eqn:E; simpl; [|exact IH].
    rewrite E. f_equal. exact IH. }
  assert (Hel : getRealChildren (visibileChildren_ nodes) = getRealChildren nodes).
  { clear Hidem.
    unfold getRealChildren, visibileChildren_, isElement, ELEMENT_NODE.
    induction nodes as [|x r IH]; simpl; [reflexivity|].
    destruct (nodeType x =? 1) eqn:E1; simpl.
    - rewrite E1. f_equal. exact IH.
    - destruct (nodeType x =? 3); [|exact IH].
      destruct (test_nonspace (textContent x)); simpl; [|exact IH].
      rewrite E1. exact IH. }
  split; [exact Hidem|]. split; [exact Hel|]. split.
  - rewrite <- Hel. unfold getRealChildren. apply filter_Subseq.
  - split.
    + intros He n Hin Hr.
      assert (Hv : In n (visibileChildren_ nodes)).
      { unfold visibileChildren_. apply filter_In. split; [assumption|].
        now apply visible_test_iff. }
      rewrite He in Hv. contradiction.
    + intro Hnone. destruct (visibileChildren_ nodes) as [|n r] eqn:E;
        [reflexivity|].
      assert (Hv : In n (visibileChildren_ nodes)) by (rewrite E; now left).
      unfold visibileChildren_ in Hv. apply filter_In in Hv.
      destruct Hv as [Hin Ht]. apply visible_test_iff in Ht.
      exfalso. exact (Hnone n Hin Ht).
Qed.

(** ** Concrete runs of the further properties *)

Local Open Scope string_scope.
Local Open Scope list_scope.


(** X6, on a scaling component with a caption and one fixed child. *)
Lemma scaling_component_measure_witness :
  let element := carpet [("scale-content", "")] in
  let nodes := [text 1 "caption";
                elem 2 (Some FIXED) [("width", "400"); ("height", "300")]] in
  scaleContent_ (fst (built element nodes)) = true /\
  exists c,
    getRealChildren nodes = [c] /\ layout_ c = Some FIXED /\
    forall cbs width W H,
      let s := fst (run Number_uint cbs (fst (built element nodes))) in
      (children_ s = [c] /\
       outcome_of (onMeasureChanged Number_uint width W H s) = Return tt /\
       In (EvSetTransform c
             (scale_factor W H
                (Number_uint (getAttribute "width" (attributes c)))
                (Number_uint (getAttribute "height" (attributes c)))))
          (trace_of (onMeasureChanged Number_uint width W H s))) \/
      (children_ s = [] /\
       outcome_of (onMeasureChanged Number_uint width W H s) = Throw TypeError).
Proof.
  cbv zeta. split; [reflexivity|].
  exact (scaling_component_measure Number_uint
           (carpet [("scale-content", "")])
           [text 1 "caption";
            elem 2 (Some FIXED) [("width", "400"); ("height", "300")]]
           eq_refl).
Defined.

(** X12, on a component holding white space and a comment only. *)
Lemma childless_component_inert_witness :
  let nodes := [text 1 "  "; mkNode 2 8 (code_units "note") None []] in
  let cbs := [CbCollapsed (elem 7 None []) Fulfilled; CbViewport true] in
  let s := fst (run Number_uint cbs (fst (built (carpet []) nodes))) in
  getRealChildren nodes = [] /\
  (children_ s = [] /\
   totalChildren_ s = Z.of_nat (List.length (filter nonblank_textb nodes)) /\
   (forall child p, collapsedCallback child p s = (s, [], Return None)) /\
   (forall ev, In ev (snd (run Number_uint cbs (fst (built (carpet []) nodes)))) ->
               is_attemptCollapse ev = false)).
Proof.
  cbv zeta. split; [reflexivity|].
  exact (childless_component_inert Number_uint (carpet [])
           [text 1 "  "; mkNode 2 8 (code_units "note") None []]
           [CbCollapsed (elem 7 None []) Fulfilled; CbViewport true] eq_refl).
Defined.

